(** * Measurement store of api-riosanjuan: ingest and range query

    A shallow embedding of [src/app.py] (the routes [POST /mediciones] and
    [GET /mediciones], with the helper [parse_iso_datetime], and the
    catalogue routes) and of the schema of the table [mediciones].
    [src/ola.py] holds the same two routes with English identifiers.

    Python values, exceptions and the request/response boundary are modelled
    explicitly, and so is what the session and the driver do with a row:
    the upsert by primary key, the foreign key, and the reading back of a
    stored timestamp.  What the code takes from its libraries and whose
    exact behaviour no property below depends on ([int], [float] and
    [datetime.fromisoformat] on text, the float type itself, the texts of
    the errors of the database layer) is the interface [PyRuntime], over
    the type of floats; [Reference] gives one executable instance. *)

From Stdlib Require Import ZArith String Ascii List Lia Permutation.
From Stdlib Require PrimFloat FloatOps SpecFloat.
From stdpp Require Import base decidable option list sorting strings pretty gmap.

Open Scope Z_scope.
Set Warnings "-register-all".

(** ** Exceptions and the error monad *)

(** The exception classes that the two routes can meet.  [DBError] stands for
    any exception of the persistence layer (integrity or data error). *)
Inductive exn :=
  | KeyError (key : string)
  | ValueError (msg : string)
  | TypeError
  | OverflowError
  | DBError (diag : string).

Inductive result (A : Type) :=
  | Ok (a : A)
  | Raise (e : exn).
Arguments Ok {A} a.
Arguments Raise {A} e.

Global Instance result_bind : MBind result := fun A B k r =>
  match r with
  | Ok a => k a
  | Raise e => Raise e
  end.

(** [repr] of a text.  The text is put between single quotes, or between
    double quotes when it holds a single quote and no double quote; the
    quote in use and the backslash get a backslash, tab, line feed and
    carriage return their letter, the other control characters their
    hexadecimal code.  The bytes of a character beyond ASCII are kept, as
    [repr] keeps every printable character. *)
Definition comilla : ascii := ascii_of_nat 39.
Definition comillas : ascii := ascii_of_nat 34.
Definition barra : ascii := ascii_of_nat 92.

Fixpoint contiene (c : ascii) (s : string) : bool :=
  match s with
  | EmptyString => false
  | String c' s' => Ascii.eqb c c' || contiene c s'
  end.

Definition hex_digit (n : N) : ascii :=
  nth (N.to_nat n)
    ["0"; "1"; "2"; "3"; "4"; "5"; "6"; "7"; "8"; "9";
     "a"; "b"; "c"; "d"; "e"; "f"]%char "0"%char.

Definition repr_char (quote c : ascii) : string :=
  let n := N_of_ascii c in
  if Ascii.eqb c quote || Ascii.eqb c barra then String barra (String c "")
  else if (n =? 9)%N then String barra "t"
  else if (n =? 10)%N then String barra "n"
  else if (n =? 13)%N then String barra "r"
  else if (n <? 32)%N || (n =? 127)%N
       then String barra
              (String "x" (String (hex_digit (n / 16))
                             (String (hex_digit (n mod 16)) "")))
  else String c "".

Fixpoint repr_body (quote : ascii) (s : string) : string :=
  match s with
  | EmptyString => EmptyString
  | String c s' => repr_char quote c +:+ repr_body quote s'
  end.

Definition py_repr (s : string) : string :=
  let quote :=
    if contiene comilla s && negb (contiene comillas s) then comillas
    else comilla in
  String quote (repr_body quote s +:+ String quote "").

(** [str(e)].  The routes render the text of a [KeyError], a [ValueError]
    or a persistence error only; for the other two classes the class name
    stands for the message. *)
Definition str_exn (e : exn) : string :=
  match e with
  | KeyError k => py_repr k
  | ValueError msg => msg
  | TypeError => "TypeError"
  | OverflowError => "OverflowError"
  | DBError diag => diag
  end.

(** ** Timestamps *)

(** A [datetime]: wall-clock fields and, when aware, the UTC offset of its
    [tzinfo] in microseconds. *)
Record datetime := {
  year : Z; month : Z; day : Z;
  hour : Z; minute : Z; second : Z; microsecond : Z;
  tzinfo : option Z
}.

Definition utc : Z := 0.

(** [dt.replace(tzinfo=tz)] *)
Definition replace_tzinfo (dt : datetime) (tz : Z) : datetime :=
  {| year := year dt; month := month dt; day := day dt;
     hour := hour dt; minute := minute dt; second := second dt;
     microsecond := microsecond dt; tzinfo := Some tz |}.

Definition is_leap (y : Z) : bool :=
  (y mod 4 =? 0) && (negb (y mod 100 =? 0) || (y mod 400 =? 0)).

Definition days_before_year (y : Z) : Z :=
  let y1 := y - 1 in y1 * 365 + y1 / 4 - y1 / 100 + y1 / 400.

Definition days_before_month (y m : Z) : Z :=
  nth (Z.to_nat m)
    [-1; 0; 31; 59; 90; 120; 151; 181; 212; 243; 273; 304; 334] 0
  + (if (2 <? m) && is_leap y then 1 else 0).

Definition ymd2ord (y m d : Z) : Z :=
  days_before_year y + days_before_month y m + d.

(** The wall clock of a [datetime] in microseconds since the start of day 0
    of the proleptic Gregorian ordinal. *)
Definition wall_clock (dt : datetime) : Z :=
  ((ymd2ord (year dt) (month dt) (day dt) * 86400
    + hour dt * 3600 + minute dt * 60 + second dt) * 1000000)
  + microsecond dt.

(** The absolute instant of an aware [datetime]: the scale on which aware
    datetimes are compared and on which a [DateTime(timezone=True)] column
    keeps them. *)
Definition instant (dt : datetime) : Z :=
  wall_clock dt - default 0 (tzinfo dt).

(** The instants that a [datetime] can hold at offset zero, from
    [datetime.min] to [datetime.max]: the ones that the driver can hand
    back when it reads a [timestamptz] column in a session whose time zone
    is UTC.  The database itself keeps instants well beyond both ends. *)
Definition datetime_min : datetime :=
  {| year := 1; month := 1; day := 1; hour := 0; minute := 0; second := 0;
     microsecond := 0; tzinfo := Some 0 |}.

Definition datetime_max : datetime :=
  {| year := 9999; month := 12; day := 31; hour := 23; minute := 59;
     second := 59; microsecond := 999999; tzinfo := Some 0 |}.

Definition legible (t : Z) : bool :=
  (instant datetime_min <=? t) && (t <=? instant datetime_max).

(** ** Python values and the library interface *)

Class PyRuntime (float : Type) := {
  (** [float(n)] for an integer; [None] when it raises [OverflowError] *)
  float_of_Z : Z -> option float;
  (** [float(s)] for a text; [None] when it raises [ValueError] *)
  float_of_string : string -> option float;
  (** [int(x)] for a float: truncation; [None] for NaN and infinities *)
  float_trunc : float -> option Z;
  float_is_nan : float -> bool;
  (** [int(s)] for a text; [None] when it raises [ValueError] *)
  Z_of_string : string -> option Z;
  (** [datetime.fromisoformat(s)]; [None] when it raises *)
  fromisoformat : string -> option datetime;
  (** the message of the [ValueError] of [int(s)] and of [float(s)] *)
  int_error_text : string -> string;
  float_error_text : string -> string;
  (** [str(e)] of the error of the database layer, taken as a function
      of the value at fault: for a row whose sensor [id] the engine
      refuses; for a stored instant [t] that no [datetime] can hold; for
      the [LIMIT] count [n] that the engine refuses *)
  fk_error_text : Z -> string;
  range_error_text : Z -> string;
  limit_error_text : Z -> string
}.

(** [str.replace("Z", "+00:00")]: every capital Z becomes the offset text. *)
Fixpoint replace_Z (s : string) : string :=
  match s with
  | EmptyString => EmptyString
  | String c s' =>
      if Ascii.eqb c "Z"%char then "+00:00" +:+ replace_Z s'
      else String c (replace_Z s')
  end.

(** [str.lower()] on the ASCII letters. *)
Definition lower_char (c : ascii) : ascii :=
  let n := N_of_ascii c in
  if ((65 <=? n) && (n <=? 90))%N then ascii_of_N (n + 32) else c.

Fixpoint lower (s : string) : string :=
  match s with
  | EmptyString => EmptyString
  | String c s' => String (lower_char c) (lower s')
  end.

(** The tokens that ask for the ascending order, spelled out: the three
    letters of [asc], each in either case. *)
Definition letra (minuscula mayuscula c : ascii) : bool :=
  Ascii.eqb c minuscula || Ascii.eqb c mayuscula.

Definition pide_asc (t : string) : bool :=
  match t with
  | String c1 (String c2 (String c3 EmptyString)) =>
      letra "a" "A" c1 && letra "s" "S" c2 && letra "c" "C" c3
  | _ => false
  end.

Section Program.
Context {float : Type} {RT : PyRuntime float}.

(** A decoded JSON document. *)
Inductive pyval :=
  | PNone
  | PBool (b : bool)
  | PInt (n : Z)
  | PFloat (x : float)
  | PStr (s : string)
  | PList (l : list pyval)
  | PDict (d : list (string * pyval)).

Fixpoint dict_get (d : list (string * pyval)) (key : string) : option pyval :=
  match d with
  | [] => None
  | (k, v) :: d' => if String.eqb k key then Some v else dict_get d' key
  end.

(** [item[key]] for a text key. *)
Definition getitem (item : pyval) (key : string) : result pyval :=
  match item with
  | PDict d =>
      match dict_get d key with
      | Some v => Ok v
      | None => Raise (KeyError key)
      end
  | _ => Raise TypeError
  end.

(** [int(x)] *)
Definition py_int (x : pyval) : result Z :=
  match x with
  | PInt n => Ok n
  | PBool b => Ok (if b then 1 else 0)
  | PFloat f =>
      match float_trunc f with
      | Some n => Ok n
      | None =>
          if float_is_nan f
          then Raise (ValueError "cannot convert float NaN to integer")
          else Raise OverflowError
      end
  | PStr s =>
      match Z_of_string s with
      | Some n => Ok n
      | None =>
          Raise (ValueError (int_error_text s))
      end
  | PNone | PList _ | PDict _ => Raise TypeError
  end.

(** [float(x)] *)
Definition py_float (x : pyval) : result float :=
  match x with
  | PFloat f => Ok f
  | PInt n =>
      match float_of_Z n with
      | Some f => Ok f
      | None => Raise OverflowError
      end
  | PBool b =>
      match float_of_Z (if b then 1 else 0) with
      | Some f => Ok f
      | None => Raise OverflowError
      end
  | PStr s =>
      match float_of_string s with
      | Some f => Ok f
      | None =>
          Raise (ValueError (float_error_text s))
      end
  | PNone | PList _ | PDict _ => Raise TypeError
  end.

(** *** Helpers of [app.py] *)

Definition iso_guidance : string :=
  "fecha_hora debe venir en formato ISO 8601 (ej: 2025-10-14T09:30:00Z)".

(** [parse_iso_datetime(value)].  Whatever goes wrong inside the [try]
    (a value without [.replace], a text that [fromisoformat] refuses) is
    caught and raised again as the one [ValueError]. *)
Definition parse_iso_datetime (value : pyval) : result datetime :=
  match value with
  | PStr s =>
      match fromisoformat (replace_Z s) with
      | Some dt =>
          match tzinfo dt with
          | None => Ok (replace_tzinfo dt utc)
          | Some _ => Ok dt
          end
      | None => Raise (ValueError iso_guidance)
      end
  | _ => Raise (ValueError iso_guidance)
  end.

(** *** Responses *)

(** One reading as the query renders it.  [fecha_hora] is the stored
    instant; its ISO text is a rendering of it. *)
Record fila := {
  fila_id_sensor : Z;
  fila_fecha_hora : Z;
  fila_valor : float
}.

(** The [data] member of a success body. *)
Inductive data :=
  | Insertados (n : nat)
  | Filas (rows : list fila).

(** The JSON body: [{"ok": true, "data": ...}] or
    [{"ok": false, "error": ..., "details": ...}]. *)
Inductive body :=
  | BodyOk (d : data)
  | BodyFail (error : string) (details : option string).

Definition response : Type := body * Z.

Definition ok (d : data) (status : Z) : response := (BodyOk d, status).

Definition fail (message : string) (status : Z) (details : option string)
  : response := (BodyFail message details, status).

(** *** The table [mediciones] and the session *)

(** A row of [mediciones].  [fecha_hora] is a [DateTime(timezone=True)]
    column: it holds the absolute instant. *)
Record Medicion := {
  id_sensor : Z;
  fecha_hora : Z;
  valor : float
}.

(** The composite primary key. *)
Definition pk (m : Medicion) : Z * Z := (id_sensor m, fecha_hora m).

(** The database as far as the two routes see it: the keys of the table
    [sensores], which [mediciones.id_sensor] references, and the rows of
    [mediciones]. *)
Record Store := {
  sensores : gset Z;
  mediciones : list Medicion
}.

(** Insert the row, or replace the row that has its primary key. *)
Fixpoint upsert (m : Medicion) (rows : list Medicion) : list Medicion :=
  match rows with
  | [] => [m]
  | r :: rows' =>
      if decide (pk r = pk m) then m :: rows' else r :: upsert m rows'
  end.

(** [db.session.merge(m)] inside the open transaction [tx].  The session
    keeps no strong reference to a row once it is flushed, so [merge]
    looks the row of the primary key of [m] up in the database.  A row
    that is found is read back, which the driver cannot do when its
    instant is out of the range of [datetime]; otherwise the row is
    replaced or inserted, and the foreign key on [id_sensor] is checked
    when it is flushed. *)
Definition session_merge (tx : Store) (m : Medicion) : result Store :=
  if bool_decide (pk m ∈ pk <$> mediciones tx) && negb (legible (fecha_hora m))
  then Raise (ValueError (range_error_text (fecha_hora m)))
  else if decide (id_sensor m ∈ sensores tx)
  then Ok {| sensores := sensores tx; mediciones := upsert m (mediciones tx) |}
  else Raise (DBError (fk_error_text (id_sensor m))).

(** [for m in mediciones: db.session.merge(m)] *)
Fixpoint merge_all (tx : Store) (ms : list Medicion) : result Store :=
  match ms with
  | [] => Ok tx
  | m :: ms' => tx' ← session_merge tx m; merge_all tx' ms'
  end.

(** *** [POST /mediciones] *)

(** The body of the [try] of the validation loop, for one item. *)
Definition leer_item (item : pyval) : result Medicion :=
  v_id ← getitem item "id_sensor";
  id ← py_int v_id;
  v_fh ← getitem item "fecha_hora";
  fh ← parse_iso_datetime v_fh;
  v_valor ← getitem item "valor";
  v ← py_float v_valor;
  Ok {| id_sensor := id; fecha_hora := instant fh; valor := v |}.

Definition item_invalido (i : nat) (e : exn) : response :=
  fail ("Ítem #" +:+ pretty i +:+ " inválido: " +:+ str_exn e) 400 None.

(** The validation loop, from item number [i] on.  [inl] is the early
    [return fail(...)] of the [except (KeyError, ValueError)] clause, [inr]
    the list [mediciones] when the loop runs to its end; an exception of
    another class leaves the route. *)
Fixpoint validar (i : nat) (items : list pyval) (acc : list Medicion)
  : result (response + list Medicion) :=
  match items with
  | [] => Ok (inr acc)
  | item :: items' =>
      match leer_item item with
      | Ok m => validar (S i) items' (acc ++ [m])
      | Raise (KeyError k) => Ok (inl (item_invalido i (KeyError k)))
      | Raise (ValueError msg) => Ok (inl (item_invalido i (ValueError msg)))
      | Raise e => Raise e
      end
  end.

(** [payload if isinstance(payload, list) else [payload]] *)
Definition items_de (payload : pyval) : list pyval :=
  match payload with
  | PList l => l
  | _ => [payload]
  end.

(** [crear_mediciones()].  [payload] is what [request.get_json(silent=True)]
    returns ([PNone] for an absent or malformed body); the result is what
    the route returns or the exception that leaves it, and the database
    after the request. *)
Definition crear_mediciones (db : Store) (payload : pyval)
  : result response * Store :=
  match payload with
  | PNone => (Ok (fail "JSON inválido o vacío" 400 None), db)
  | _ =>
      match validar 1 (items_de payload) [] with
      | Raise e => (Raise e, db)
      | Ok (inl r) => (Ok r, db)
      | Ok (inr ms) =>
          match merge_all db ms with
          | Ok tx => (* commit *)
              (Ok (ok (Insertados (length ms)) 201), tx)
          | Raise e => (* rollback *)
              (Ok (fail "No se pudieron guardar las mediciones" 400
                     (Some (str_exn e))), db)
          end
      end
  end.

(** *** [GET /mediciones] *)

(** [request.args]: the query string as a list of pairs; [get] takes the
    first value of a key. *)
Definition args : Type := list (string * string).

Fixpoint args_lookup (a : args) (key : string) : option string :=
  match a with
  | [] => None
  | (k, v) :: a' => if String.eqb k key then Some v else args_lookup a' key
  end.

(** [request.args.get(key, default=default, type=type)]: the default when
    the key is absent, and also when the conversion raises. *)
Definition args_get {A} (a : args) (key : string) (default : A)
    (type : string -> option A) : A :=
  match args_lookup a key with
  | None => default
  | Some rv =>
      match type rv with
      | Some v => v
      | None => default
      end
  end.

(** [type=int] for a parameter whose default is [None]. *)
Definition type_int (rv : string) : option (option Z) :=
  match Z_of_string rv with
  | Some n => Some (Some n)
  | None => None
  end.

Inductive direction := Asc | Desc.

(** A [select(Medicion)] statement: the conjunction of its [where]
    criteria, its [order_by] and its [limit]. *)
Record Select := {
  whereclause : Medicion -> bool;
  order_by_clause : option direction;
  limit_clause : option Z
}.

Definition select_medicion : Select :=
  {| whereclause := fun _ => true; order_by_clause := None;
     limit_clause := None |}.

Definition where_ (q : Select) (c : Medicion -> bool) : Select :=
  {| whereclause := fun m => whereclause q m && c m;
     order_by_clause := order_by_clause q;
     limit_clause := limit_clause q |}.

Definition order_by (q : Select) (o : direction) : Select :=
  {| whereclause := whereclause q; order_by_clause := Some o;
     limit_clause := limit_clause q |}.

Definition limit (q : Select) (n : Z) : Select :=
  {| whereclause := whereclause q; order_by_clause := order_by_clause q;
     limit_clause := Some n |}.

(** [a] comes no later than [b] in a result ordered by [fecha_hora]. *)
Definition precede (o : direction) (a b : Medicion) : Prop :=
  match o with
  | Asc => fecha_hora a <= fecha_hora b
  | Desc => fecha_hora b <= fecha_hora a
  end.

Global Instance precede_dec o a b : Decision (precede o a b).
Proof. destruct o; simpl; apply _. Defined.

(** The count of a [LIMIT] clause is a signed 64-bit integer that the
    engine refuses when negative. *)
Definition limit_ok (n : Z) : bool := (0 <=? n) && (n <? 2 ^ 63).

(** The rows of a result as the driver hands them over: the first row
    whose instant no [datetime] can hold raises the [ValueError] of the
    driver. *)
Fixpoint fetch (rows : list Medicion) : result (list Medicion) :=
  match rows with
  | [] => Ok []
  | r :: rows' =>
      if legible (fecha_hora r)
      then rows'' ← fetch rows'; Ok (r :: rows'')
      else Raise (ValueError (range_error_text (fecha_hora r)))
  end.

(** [db.session.execute(q).scalars().all()] *)
Definition execute (db : Store) (q : Select) : result (list Medicion) :=
  let matching := filter (fun m => Is_true (whereclause q m)) (mediciones db) in
  let ordered :=
    match order_by_clause q with
    | Some o => merge_sort (precede o) matching
    | None => matching
    end in
  match limit_clause q with
  | None => fetch ordered
  | Some n =>
      if limit_ok n then fetch (take (Z.to_nat n) ordered)
      else Raise (DBError (limit_error_text n))
  end.

Definition fila_de (r : Medicion) : fila :=
  {| fila_id_sensor := id_sensor r;
     fila_fecha_hora := fecha_hora r;
     fila_valor := valor r |}.

(** Truth value of an optional text: [None] and the empty text are false. *)
Definition truthy_str (o : option string) : option string :=
  match o with
  | Some EmptyString => None
  | _ => o
  end.

Definition id_sensor_obligatorio : response :=
  fail "Parámetro 'id_sensor' es obligatorio" 400 None.

(** The statement that the [try] block builds; a bound that does not parse
    raises the [ValueError] of [parse_iso_datetime]. *)
Definition construir_consulta (id : Z) (desde hasta : option string)
    (order : string) (lim : Z) : result Select :=
  let q := where_ select_medicion (fun m => id_sensor m =? id) in
  q ← match truthy_str desde with
      | Some d =>
          dt ← parse_iso_datetime (PStr d);
          Ok (where_ q (fun m => instant dt <=? fecha_hora m))
      | None => Ok q
      end;
  q ← match truthy_str hasta with
      | Some h =>
          dt ← parse_iso_datetime (PStr h);
          Ok (where_ q (fun m => fecha_hora m <=? instant dt))
      | None => Ok q
      end;
  let q := if String.eqb order "asc" then order_by q Asc
           else order_by q Desc in
  Ok (limit q lim).

(** [consultar_mediciones()] on the query string [a]. *)
Definition consultar_mediciones (db : Store) (a : args) : response :=
  match args_get a "id_sensor" None type_int with
  | None | Some 0 => id_sensor_obligatorio
  | Some id =>
      let lim := args_get a "limit" 100 Z_of_string in
      let order := lower (args_get a "order" "desc"%string Some) in
      let desde := args_lookup a "desde" in
      let hasta := args_lookup a "hasta" in
      match (q ← construir_consulta id desde hasta order lim;
             rows ← execute db q;
             Ok (ok (Filas (fila_de <$> rows)) 200)) with
      | Ok r => r
      | Raise (ValueError msg) => fail msg 400 None
      | Raise e => fail "Error al consultar mediciones" 400 (Some (str_exn e))
      end
  end.

(** *** Vocabulary of the properties *)

(** No two rows share a primary key. *)
Definition pk_unique (db : Store) : Prop := NoDup (pk <$> mediciones db).

(** Every row references a row of [sensores]. *)
Definition fk_ok (db : Store) : Prop :=
  Forall (fun m => id_sensor m ∈ sensores db) (mediciones db).

(** A state that the constraints of the schema admit. *)
Definition wf (db : Store) : Prop := pk_unique db /\ fk_ok db.

(** The rows stored under a key. *)
Definition lecturas (k : Z * Z) (rows : list Medicion) : list Medicion :=
  filter (fun r => pk r = k) rows.

(** The rows after merging [ms] one after the other. *)
Fixpoint upsert_all (rows ms : list Medicion) : list Medicion :=
  match ms with
  | [] => rows
  | m :: ms' => upsert_all (upsert m rows) ms'
  end.

(** The last row of a batch for a key: the one that the store keeps. *)
Definition ultima (k : Z * Z) (ms : list Medicion) : option Medicion :=
  last (lecturas k ms).

(** The exception classes of the [except] clause of the validation loop. *)
Definition atrapada (e : exn) : bool :=
  match e with
  | KeyError _ | ValueError _ => true
  | _ => false
  end.

(** Every item of [items] validates, to the reading at its position. *)
Definition validos (items : list pyval) (ms : list Medicion) : Prop :=
  Forall2 (fun item m => leer_item item = Ok m) items ms.

(** The foreign key holds for every reading of a batch. *)
Definition sensores_conocidos (db : Store) (ms : list Medicion) : Prop :=
  Forall (fun m => id_sensor m ∈ sensores db) ms.

Global Instance wf_dec (db : Store) : Decision (wf db).
Proof. unfold wf, pk_unique, fk_ok. apply _. Defined.

Global Instance sensores_conocidos_dec (db : Store) (ms : list Medicion) :
  Decision (sensores_conocidos db ms).
Proof. unfold sensores_conocidos. apply _. Defined.

(** Every reading of the list has an instant that can be read back. *)
Definition legibles (rows : list Medicion) : Prop :=
  Forall (fun m => Is_true (legible (fecha_hora m))) rows.

Global Instance legibles_dec (rows : list Medicion) : Decision (legibles rows).
Proof. unfold legibles. apply _. Defined.



(** No reading of [ms] writes over a stored row that cannot be read
    back. *)
Definition reemplazables (db : Store) (ms : list Medicion) : Prop :=
  Forall (fun m => pk m ∈ pk <$> mediciones db ->
                   Is_true (legible (fecha_hora m))) ms.

Global Instance reemplazables_dec (db : Store) (ms : list Medicion) :
  Decision (reemplazables db ms).
Proof. unfold reemplazables. apply _. Defined.


(** The direction that the lowered [order] token selects. *)
Definition direccion (order : string) : direction :=
  if String.eqb order "asc" then Asc else Desc.




(** The direction that a query string asks for: ascending for an [order]
    that is [asc] in some letter case, descending without [order] and for
    every other token. *)
Definition direccion_pedida (a : args) : direction :=
  match args_lookup a "order" with
  | Some t => if pide_asc t then Asc else Desc
  | None => Desc
  end.

(** The query strings [a] and [a'] give the same text, or none, for each
    parameter of [keys]. *)
Definition lee_igual (keys : list string) (a a' : args) : Prop :=
  Forall (fun k => args_lookup a' k = args_lookup a k) keys.

Global Instance lee_igual_dec keys a a' : Decision (lee_igual keys a a').
Proof. unfold lee_igual. apply _. Defined.

(** A bound of the query string once parsed; [None] when the parameter is
    absent or empty. *)
Definition cota (o : option string) : result (option datetime) :=
  match truthy_str o with
  | Some s => dt ← parse_iso_datetime (PStr s); Ok (Some dt)
  | None => Ok None
  end.

(** The rows that a query for sensor [id] between the instants [d] and [h]
    asks for; both ends belong to the range. *)
Definition en_rango (id : Z) (d h : option Z) (r : Medicion) : Prop :=
  id_sensor r = id
  /\ match d with Some t => t <= fecha_hora r | None => True end
  /\ match h with Some t => fecha_hora r <= t | None => True end.

Global Instance en_rango_dec id d h r : Decision (en_rango id d h r).
Proof. unfold en_rango. destruct d, h; apply _. Defined.

End Program.

Arguments pyval : clear implicits.
Arguments fila : clear implicits.
Arguments data : clear implicits.
Arguments body : clear implicits.
Arguments response : clear implicits.
Arguments Medicion : clear implicits.
Arguments Store : clear implicits.
Arguments Select : clear implicits.

(** ** The catalogue routes

    [GET /estaciones], [GET /tipos_sensor] and [GET /sensores] of
    [app.py], over the tables of the models [Estacion], [TipoSensor] and
    [Sensor].  A nullable column is an [option]. *)

Section Catalogo.
Context {float : Type} {RT : PyRuntime float}.

Record Estacion := {
  id_estacion : Z;
  codigo : string;
  nombre : option string;
  latitud : option float;
  longitud : option float;
  activa : bool
}.

Record TipoSensor := {
  id_tipo_sensor : Z;
  tipo_nombre : string;
  descripcion : option string;
  unidad : option string;
  valor_minimo : option float;
  valor_maximo : option float;
  decimales : option Z
}.

(** A row of [sensores]; its two foreign keys are nullable
    ([ondelete="SET NULL"]). *)
Record Sensor := {
  sensor_id_sensor : Z;
  sensor_id_estacion : option Z;
  sensor_id_tipo_sensor : option Z;
  modelo : option string;
  numero_serie : option string;
  unidad_medida : option string;
  activo : bool
}.

Record Catalogo := {
  estaciones : list Estacion;
  tipos_sensor : list TipoSensor;
  filas_sensores : list Sensor
}.

(** The order of [order_by(clave)], ascending. *)
Definition por_clave {A} (clave : A -> Z) (x y : A) : Prop :=
  clave x <= clave y.

Global Instance por_clave_dec {A} (clave : A -> Z) x y :
  Decision (por_clave clave x y).
Proof. unfold por_clave. apply _. Defined.

(** [db.session.execute(select(...).order_by(clave)).mappings().all()] on
    the rows that pass the filters. *)
Definition ordenar_por {A} (clave : A -> Z) (rows : list A) : list A :=
  merge_sort (por_clave clave) rows.

(** [ok(list(map(dict, rows)))]: the rows of the body and the status. *)
Definition ok_filas {A} (rows : list A) (status : Z) : list A * Z :=
  (rows, status).

(** [listar_estaciones()] *)
Definition listar_estaciones (c : Catalogo) : list Estacion * Z :=
  ok_filas (ordenar_por id_estacion (estaciones c)) 200.

(** [listar_tipos_sensor()] *)
Definition listar_tipos_sensor (c : Catalogo) : list TipoSensor * Z :=
  ok_filas (ordenar_por id_tipo_sensor (tipos_sensor c)) 200.

(** [columna == x] in a filter: never true of a null column. *)
Definition eq_columna (columna : option Z) (x : Z) : bool :=
  match columna with
  | Some y => y =? x
  | None => false
  end.

(** [listar_sensores()] on the query string [a]. *)
Definition listar_sensores (c : Catalogo) (a : args) : list Sensor * Z :=
  let q := fun _ : Sensor => true in
  let id_estacion := args_get a "id_estacion" None type_int in
  let id_tipo_sensor := args_get a "id_tipo_sensor" None type_int in
  let q :=
    match id_estacion with
    | Some x => fun s => q s && eq_columna (sensor_id_estacion s) x
    | None => q
    end in
  let q :=
    match id_tipo_sensor with
    | Some x => fun s => q s && eq_columna (sensor_id_tipo_sensor s) x
    | None => q
    end in
  ok_filas
    (ordenar_por sensor_id_sensor
       (filter (fun s => Is_true (q s)) (filas_sensores c))) 200.

(** *** Vocabulary of the properties *)

(** The sensors that the optional filters [e] (station) and [t] (type)
    ask for. *)
Definition coincide (e t : option Z) (s : Sensor) : Prop :=
  match e with Some x => sensor_id_estacion s = Some x | None => True end
  /\ match t with Some x => sensor_id_tipo_sensor s = Some x | None => True end.

Global Instance coincide_dec e t s : Decision (coincide e t s).
Proof. unfold coincide. destruct e, t; apply _. Defined.

End Catalogo.

Arguments Estacion : clear implicits.
Arguments TipoSensor : clear implicits.
Arguments Catalogo : clear implicits.

(** ** A reference runtime

    An executable instance of [PyRuntime]: binary64 floats, and the
    conversions from text on the plain forms of their grammars (what Python
    accepts beyond them is refused here). *)
Module Reference.

Definition digit (c : ascii) : option Z :=
  let n := N_of_ascii c in
  if ((48 <=? n) && (n <=? 57))%N then Some (Z.of_N n - 48) else None.

(** The value of a non-empty run of decimal digits, after [acc]. *)
Fixpoint digits_from (acc : Z) (s : string) : option Z :=
  match s with
  | EmptyString => Some acc
  | String c s' =>
      match digit c with
      | Some d => digits_from (acc * 10 + d) s'
      | None => None
      end
  end.

Definition digits (s : string) : option Z :=
  match s with
  | EmptyString => None
  | _ => digits_from 0 s
  end.

(** [int(s)]: an optional sign and decimal digits. *)
Definition int_of_text (s : string) : option Z :=
  match s with
  | String "-" s' => Z.opp <$> digits s'
  | String "+" s' => digits s'
  | _ => digits s
  end.

Definition float_of_int (n : Z) : option PrimFloat.float :=
  let f := FloatOps.SF2Prim
             (SpecFloat.binary_normalize FloatOps.prec FloatOps.emax n 0 false) in
  if PrimFloat.is_infinity f then None else Some f.

Definition trunc (f : PrimFloat.float) : option Z :=
  match FloatOps.Prim2SF f with
  | SpecFloat.S754_zero _ => Some 0
  | SpecFloat.S754_finite s m e =>
      let a := if 0 <=? e then Z.pos m * 2 ^ e else Z.pos m / 2 ^ (- e) in
      Some (if s then - a else a)
  | _ => None
  end.

(** Split a text at its first [sep]. *)
Fixpoint split_at (sep : ascii) (s : string) : string * option string :=
  match s with
  | EmptyString => (EmptyString, None)
  | String c s' =>
      if Ascii.eqb c sep then (EmptyString, Some s')
      else let '(l, r) := split_at sep s' in (String c l, r)
  end.

(** [float(s)]: an optional sign, digits and an optional fraction, of at
    most 15 digits in all; the quotient of two exact floats is then the
    correctly rounded value. *)
Definition float_of_text (s : string) : option PrimFloat.float :=
  let '(neg, body) :=
    match s with
    | String "-" s' => (true, s')
    | String "+" s' => (false, s')
    | _ => (false, s)
    end in
  let '(ip, fp) := split_at "." body in
  let fp := default EmptyString fp in
  if (15 <? Z.of_nat (String.length ip + String.length fp)) then None else
  m ← digits (ip +:+ fp);
  num ← float_of_int (if neg then - m else m);
  den ← float_of_int (10 ^ Z.of_nat (String.length fp));
  Some (PrimFloat.div num den).

Definition days_in_month (y m : Z) : Z :=
  if m =? 2 then (if is_leap y then 29 else 28)
  else if (m =? 4) || (m =? 6) || (m =? 9) || (m =? 11) then 30 else 31.

Definition between (lo x hi : Z) : bool := (lo <=? x) && (x <=? hi).

(** Two-field texts [AA<sep>BB...]: the sub-text of [n] characters at [i]. *)
Definition field (s : string) (i n : nat) : option Z :=
  let t := String.substring i n s in
  if Nat.eqb (String.length t) n then digits t else None.

Definition char_at (s : string) (i : nat) : option ascii := String.get i s.

(** [+HH:MM] or [-HH:MM] as microseconds. *)
Definition offset_of_text (s : string) : option Z :=
  if negb (Nat.eqb (String.length s) 6) then None else
  sign ← match char_at s 0 with
         | Some "+"%char => Some 1
         | Some "-"%char => Some (-1)
         | _ => None
         end;
  hh ← field s 1 2;
  _ ← guard (char_at s 3 = Some ":"%char);
  mm ← field s 4 2;
  _ ← guard (Is_true (between 0 hh 23 && between 0 mm 59));
  Some (sign * (hh * 3600 + mm * 60) * 1000000).

(** [datetime.fromisoformat(s)] on [YYYY-MM-DD], optionally followed by a
    separator, [HH:MM:SS] and an offset [+HH:MM] or [-HH:MM]. *)
Definition datetime_of_text (s : string) : option datetime :=
  y ← field s 0 4;
  _ ← guard (char_at s 4 = Some "-"%char);
  m ← field s 5 2;
  _ ← guard (char_at s 7 = Some "-"%char);
  d ← field s 8 2;
  _ ← guard (Is_true (between 1 y 9999 && between 1 m 12
                      && between 1 d (days_in_month y m)));
  let date h mi sec tz :=
    {| year := y; month := m; day := d; hour := h; minute := mi;
       second := sec; microsecond := 0; tzinfo := tz |} in
  if Nat.eqb (String.length s) 10 then Some (date 0 0 0 None) else
  _ ← guard (char_at s 10 = Some "T"%char ∨ char_at s 10 = Some " "%char);
  h ← field s 11 2;
  _ ← guard (char_at s 13 = Some ":"%char);
  mi ← field s 14 2;
  _ ← guard (char_at s 16 = Some ":"%char);
  sec ← field s 17 2;
  _ ← guard (Is_true (between 0 h 23 && between 0 mi 59 && between 0 sec 59));
  if Nat.eqb (String.length s) 19 then Some (date h mi sec None) else
  off ← offset_of_text (String.substring 19 (String.length s - 19) s);
  Some (date h mi sec (Some off)).

(** Sample texts of the driver.  Every instant out of range that a
    timestamp of the routes can denote lies within a day of the range: in
    the year before year 1, or in the year 10000. *)
Definition texto_rango (t : Z) : string :=
  if t <? instant datetime_min then "year -1 is out of range"
  else "year 10000 is out of range".

Definition texto_fk (id : Z) : string :=
  "insert or update on table mediciones violates foreign key constraint: "
  +:+ "Key (id_sensor)=(" +:+ pretty id
  +:+ ") is not present in table sensores".

#[export] Instance runtime : PyRuntime PrimFloat.float := {|
  float_of_Z := float_of_int;
  float_of_string := float_of_text;
  float_trunc := trunc;
  float_is_nan := PrimFloat.is_nan;
  Z_of_string := int_of_text;
  fromisoformat := datetime_of_text;
  int_error_text := fun s =>
    "invalid literal for int() with base 10: " +:+ py_repr s;
  float_error_text := fun s =>
    "could not convert string to float: " +:+ py_repr s;
  fk_error_text := texto_fk;
  range_error_text := texto_rango;
  limit_error_text := fun _ => "LIMIT must not be negative"
|}.

End Reference.
Export Reference.

(** ** Sample data on the reference runtime *)

Module Ejemplos.

(** A reading object [{"id_sensor": id, "fecha_hora": ts, "valor": v}]. *)
Definition lectura (id : Z) (ts : string) (v : Z) : pyval PrimFloat.float :=
  PDict [("id_sensor"%string, PInt id); ("fecha_hora"%string, PStr ts);
         ("valor"%string, PInt v)].

(** Sensors 1 and 2 exist; no reading yet. *)
Definition db_vacia : Store PrimFloat.float :=
  {| sensores := {[1; 2]}; mediciones := [] |}.

Definition t1 : string := "2025-01-01T00:00:00Z".
Definition t2 : string := "2025-01-02T00:00:00Z".
Definition t3 : string := "2025-01-03T00:00:00Z".

(** One reading of sensor 1 at [t1], with value 5. *)
Definition db_una : Store PrimFloat.float :=
  Eval vm_compute in (crear_mediciones db_vacia (lectura 1 t1 5)).2.

(** Readings of sensor 1 at [t1 < t2 < t3], stored out of order, and one
    of sensor 2. *)
Definition db_tres : Store PrimFloat.float :=
  Eval vm_compute in
    (crear_mediciones db_vacia
       (PList [lectura 1 t2 20; lectura 2 t2 77; lectura 1 t3 30;
               lectura 1 t1 10])).2.

(** The reading that a valid object stands for. *)
Definition medicion_de (item : pyval PrimFloat.float)
  : Medicion PrimFloat.float :=
  match leer_item item with
  | Ok m => m
  | Raise _ => {| id_sensor := 0; fecha_hora := 0; valor := PrimFloat.zero |}
  end.

Definition m1_9 : Medicion PrimFloat.float :=
  Eval vm_compute in medicion_de (lectura 1 t1 9).
Definition m1_10 : Medicion PrimFloat.float :=
  Eval vm_compute in medicion_de (lectura 1 t1 10).
Definition m1_20 : Medicion PrimFloat.float :=
  Eval vm_compute in medicion_de (lectura 1 t2 20).
Definition m1_30 : Medicion PrimFloat.float :=
  Eval vm_compute in medicion_de (lectura 1 t3 30).

(** A valid reading followed by one whose timestamp does not parse. *)
Definition lote_con_fecha_mala : pyval PrimFloat.float :=
  PList [lectura 1 t1 5; lectura 1 "ayer" 5].

(** Two readings for the pair that [db_una] holds: the later one stays. *)
Definition lote_repetido : pyval PrimFloat.float :=
  PList [lectura 1 t1 10; lectura 1 t1 9].

Definition dt_t2 : datetime :=
  {| year := 2025; month := 1; day := 2; hour := 0; minute := 0; second := 0;
     microsecond := 0; tzinfo := Some 0 |}.

(** Sensor 1 from [t2] on, one row at most. *)
Definition consulta_acotada : args :=
  [("id_sensor", "1"); ("desde", "2025-01-02T00:00:00"); ("limit", "1")]%string.

Definition dt_naive : datetime :=
  {| year := 2025; month := 10; day := 14; hour := 9; minute := 30;
     second := 0; microsecond := 0; tzinfo := None |}.

End Ejemplos.
Import Ejemplos.

(** ** More sample data *)

Module EjemplosMas.

Definition dt_t1 : datetime :=
  {| year := 2025; month := 1; day := 1; hour := 0; minute := 0; second := 0;
     microsecond := 0; tzinfo := Some 0 |}.

Definition dt_t3 : datetime :=
  {| year := 2025; month := 1; day := 3; hour := 0; minute := 0; second := 0;
     microsecond := 0; tzinfo := Some 0 |}.

(** 09:30 at five hours behind UTC. *)
Definition dt_menos_cinco : datetime :=
  {| year := 2025; month := 10; day := 14; hour := 9; minute := 30;
     second := 0; microsecond := 0; tzinfo := Some (-18000000000) |}.

(** The rows of [db_tres] kept the other way round. *)
Definition db_tres_al_reves : Store PrimFloat.float :=
  {| sensores := sensores db_tres;
     mediciones := reverse (mediciones db_tres) |}.

(** An object without [valor], and one without any field. *)
Definition sin_valor : pyval PrimFloat.float :=
  PDict [("id_sensor"%string, PInt 1); ("fecha_hora"%string, PStr t1)].

Definition lote_sin_valor : pyval PrimFloat.float :=
  PList [lectura 1 t1 5; sin_valor].



(** A timestamp that [fromisoformat] reads and whose instant, five hours
    before the start of year 1, no [datetime] holds at offset zero. *)
Definition t0 : string := "0001-01-01T00:00:00+05:00".

(** One reading of sensor 1 at [t0], with value 5. *)
Definition db_antigua : Store PrimFloat.float :=
  Eval vm_compute in (crear_mediciones db_vacia (lectura 1 t0 5)).2.

Definition m0_5 : Medicion PrimFloat.float :=
  Eval vm_compute in medicion_de (lectura 1 t0 5).
Definition m0_9 : Medicion PrimFloat.float :=
  Eval vm_compute in medicion_de (lectura 1 t0 9).

(** An object whose [valor] is [null], and one whose [id_sensor] is the
    float infinity, which is what the JSON number [1e400] decodes to. *)
Definition con_valor_nulo : pyval PrimFloat.float :=
  PDict [("id_sensor"%string, PInt 1); ("fecha_hora"%string, PStr t1);
         ("valor"%string, PNone)].

Definition con_id_infinito : pyval PrimFloat.float :=
  PDict [("id_sensor"%string, PFloat PrimFloat.infinity);
         ("fecha_hora"%string, PStr t1); ("valor"%string, PInt 5)].

(** An object whose [id_sensor] is a text that is no integer. *)
Definition con_id_de_texto : pyval PrimFloat.float :=
  PDict [("id_sensor"%string, PStr "abc"); ("fecha_hora"%string, PStr t1);
         ("valor"%string, PInt 5)].


(** The fields of a rendered row. *)
Definition campos_fila (f : fila PrimFloat.float) : Z * Z * PrimFloat.float :=
  (fila_id_sensor f, fila_fecha_hora f, fila_valor f).

Definition sensor_de (id : Z) (estacion tipo : option Z) : Sensor :=
  {| sensor_id_sensor := id; sensor_id_estacion := estacion;
     sensor_id_tipo_sensor := tipo; modelo := None; numero_serie := None;
     unidad_medida := None; activo := true |}.

(** Three sensors, stored out of order; the second has lost its
    station. *)
Definition catalogo : Catalogo PrimFloat.float :=
  {| estaciones := []; tipos_sensor := [];
     filas_sensores :=
       [sensor_de 3 (Some 1) (Some 2); sensor_de 2 None (Some 2);
        sensor_de 1 (Some 1) (Some 1)] |}.

End EjemplosMas.
Import EjemplosMas.

(** * Properties *)

(** ** The reference runtime on sample texts *)

Example reference_int : int_of_text "42" = Some 42 /\ int_of_text "abc" = None
  /\ int_of_text "-7" = Some (-7) /\ int_of_text "" = None.
Proof. vm_compute. auto. Qed.

Example reference_float :
  (float_of_text "12.0" ≫= trunc) = Some 12
  /\ (float_of_text "-7.9" ≫= trunc) = Some (-7)
  /\ float_of_text "7.3" = (n ← float_of_int 73; d ← float_of_int 10;
                            Some (PrimFloat.div n d))
  /\ float_of_text "x" = None.
Proof. vm_compute. auto. Qed.

Example reference_datetime :
  datetime_of_text "2025-10-14T09:30:00+00:00"
  = Some {| year := 2025; month := 10; day := 14; hour := 9; minute := 30;
            second := 0; microsecond := 0; tzinfo := Some 0 |}
  /\ datetime_of_text "2025-10-14 09:30:00-05:30"
     = Some {| year := 2025; month := 10; day := 14; hour := 9; minute := 30;
               second := 0; microsecond := 0;
               tzinfo := Some (-19800000000) |}
  /\ datetime_of_text "2025-02-29" = None
  /\ datetime_of_text "14/10/2025" = None.
Proof. vm_compute. auto. Qed.

(** ** The table: primary key and foreign key *)

Section StoreFacts.
Context {float : Type} {RT : PyRuntime float}.

Implicit Types (m r : Medicion float) (rows ms : list (Medicion float)).
Implicit Types (k : Z * Z).

Lemma upsert_absent m rows :
  pk m ∉ pk <$> rows -> upsert m rows = rows ++ [m].
Proof.
  induction rows as [|r rows IH]; csimpl; [done|].
  rewrite not_elem_of_cons. intros [Hne Hnin].
  destruct (decide (pk r = pk m)) as [Heq|_]; [by destruct Hne|].
  by rewrite IH.
Qed.

Lemma upsert_keys_present m rows :
  pk m ∈ pk <$> rows -> pk <$> upsert m rows = pk <$> rows.
Proof.
  induction rows as [|r rows IH]; csimpl.
  - by intros ?%elem_of_nil.
  - destruct (decide (pk r = pk m)) as [Heq|Hne]; csimpl.
    + by rewrite Heq.
    + rewrite elem_of_cons. intros [Heq|Hin]; [by destruct Hne|].
      by rewrite IH.
Qed.

Lemma upsert_keys m rows :
  pk <$> upsert m rows
  = if decide (pk m ∈ pk <$> rows) then pk <$> rows
    else (pk <$> rows) ++ [pk m].
Proof.
  destruct (decide _) as [Hin|Hnin].
  - by apply upsert_keys_present.
  - by rewrite upsert_absent, fmap_app.
Qed.


Lemma upsert_key_mono m rows k :
  k ∈ pk <$> rows -> k ∈ pk <$> upsert m rows.
Proof.
  rewrite upsert_keys. destruct (decide _); [done|].
  rewrite elem_of_app. by left.
Qed.


Lemma upsert_NoDup m rows :
  NoDup (pk <$> rows) -> NoDup (pk <$> upsert m rows).
Proof.
  intros Hnd. rewrite upsert_keys. destruct (decide _) as [|Hnin]; [done|].
  apply NoDup_app. split_and!; [done| |apply NoDup_singleton].
  intros k Hk ->%list_elem_of_singleton. done.
Qed.

Lemma upsert_elem m rows r :
  r ∈ upsert m rows -> r = m \/ r ∈ rows.
Proof.
  induction rows as [|r' rows IH]; simpl.
  - rewrite list_elem_of_singleton. auto.
  - destruct (decide (pk r' = pk m)); rewrite !elem_of_cons;
      intros [->|Hin]; auto.
    destruct (IH Hin); auto.
Qed.

Lemma lecturas_nil k rows : k ∉ pk <$> rows -> lecturas k rows = [].
Proof.
  unfold lecturas. induction rows as [|r rows IH]; csimpl; [done|].
  rewrite not_elem_of_cons. intros [Hne Hnin].
  rewrite filter_cons_False by congruence. auto.
Qed.

Lemma lecturas_elem k rows r : r ∈ lecturas k rows <-> pk r = k /\ r ∈ rows.
Proof. unfold lecturas. by rewrite list_elem_of_filter. Qed.



(** *** Algebra of [upsert] *)




Lemma upsert_all_key_mono rows ms k :
  k ∈ pk <$> rows -> k ∈ pk <$> upsert_all rows ms.
Proof.
  revert rows. induction ms as [|m ms IH]; simpl; intros rows Hk; [done|].
  by apply IH, upsert_key_mono.
Qed.

Lemma upsert_all_NoDup rows ms :
  NoDup (pk <$> rows) -> NoDup (pk <$> upsert_all rows ms).
Proof.
  revert rows. induction ms as [|m ms IH]; simpl; intros rows Hnd; [done|].
  by apply IH, upsert_NoDup.
Qed.

Lemma upsert_all_elem rows ms r :
  r ∈ upsert_all rows ms -> r ∈ ms \/ r ∈ rows.
Proof.
  revert rows. induction ms as [|m ms IH]; simpl; intros rows Hr; [auto|].
  rewrite elem_of_cons.
  destruct (IH _ Hr) as [?|[->|?]%upsert_elem]; auto.
Qed.





Lemma ultima_Some k ms m : ultima k ms = Some m -> pk m = k /\ m ∈ ms.
Proof.
  unfold ultima. intros Hl%last_Some_elem_of. by apply lecturas_elem.
Qed.


End StoreFacts.

(** ** Ingest *)

Section IngestFacts.
Context {float : Type} {RT : PyRuntime float}.

Implicit Types (db : Store float) (payload item : pyval float).
Implicit Types (m r : Medicion float) (rows ms : list (Medicion float)).
Implicit Types (items pre post : list (pyval float)).

(** [merge] fails when the row of the key is stored and cannot be read
    back, then when the sensor is unknown; otherwise it writes the row. *)
Lemma session_merge_spec db m :
  session_merge db m
  = if decide (pk m ∈ pk <$> mediciones db /\ legible (fecha_hora m) = false)
    then Raise (ValueError (range_error_text (fecha_hora m)))
    else if decide (id_sensor m ∈ sensores db)
    then Ok {| sensores := sensores db;
               mediciones := upsert m (mediciones db) |}
    else Raise (DBError (fk_error_text (id_sensor m))).
Proof.
  unfold session_merge.
  destruct (decide (_ /\ _)) as [[Hin Hl]|Hn].
  - by rewrite bool_decide_eq_true_2, Hl by done.
  - destruct (bool_decide_reflect (pk m ∈ pk <$> mediciones db)) as [Hin|Hin];
      [|done].
    destruct (legible (fecha_hora m)) eqn:Hl; [done|]. by destruct Hn.
Qed.

(** A transaction that reaches its commit has merged the batch row by
    row, and every sensor of the batch is known. *)
Lemma merge_all_Ok db ms tx :
  merge_all db ms = Ok tx ->
  tx = {| sensores := sensores db;
          mediciones := upsert_all (mediciones db) ms |}
  /\ sensores_conocidos db ms.
Proof.
  revert db. induction ms as [|m ms IH]; intros db; simpl.
  - intros [= <-]. split; [by destruct db|constructor].
  - rewrite session_merge_spec.
    destruct (decide (_ /\ _)); [done|].
    destruct (decide (id_sensor m ∈ sensores db)) as [Hm|Hm]; [|done].
    simpl. intros [-> Hs]%IH. split; [done|by constructor].
Qed.




(** What the engine raises is the [ValueError] of the driver or an error
    of the database. *)
Lemma merge_all_Raise db ms e :
  merge_all db ms = Raise e ->
  exists text, (e = ValueError text \/ e = DBError text) /\ str_exn e = text.
Proof.
  revert db. induction ms as [|a ms IH]; intros db; simpl; [done|].
  rewrite session_merge_spec.
  destruct (decide (pk a ∈ pk <$> mediciones db /\ _));
    [intros [= <-]; eexists; split; [by left|done]|].
  destruct (decide (id_sensor a ∈ sensores db));
    [|intros [= <-]; eexists; split; [by right|done]].
  simpl. apply IH.
Qed.

Lemma reemplazables_upsert db a ms :
  pk a ∉ pk <$> ms ->
  reemplazables
    {| sensores := sensores db; mediciones := upsert a (mediciones db) |} ms
  <-> reemplazables db ms.
Proof.
  intros Ha. unfold reemplazables. rewrite !Forall_forall.
  assert (Hkeys : forall m, m ∈ ms ->
            pk m ∈ pk <$> upsert a (mediciones db)
            <-> pk m ∈ pk <$> mediciones db).
  { intros m Hm. rewrite upsert_keys. destruct (decide _); [done|].
    rewrite elem_of_app, list_elem_of_singleton. split; [|by left].
    intros [?|Heq]; [done|]. destruct Ha. rewrite <- Heq.
    by apply list_elem_of_fmap_2. }
  split; intros H m Hm Hin; apply (H m Hm); simpl in *; by apply Hkeys.
Qed.

(** A batch of known sensors that writes no pair twice is accepted exactly
    when it writes over no stored row that cannot be read back. *)
Lemma merge_all_NoDup db ms :
  NoDup (pk <$> ms) -> sensores_conocidos db ms ->
  if decide (reemplazables db ms)
  then merge_all db ms
       = Ok {| sensores := sensores db;
               mediciones := upsert_all (mediciones db) ms |}
  else exists e, merge_all db ms = Raise e.
Proof.
  revert db. induction ms as [|a ms IH]; intros db Hnd Hs.
  - rewrite decide_True by constructor. by destruct db.
  - csimpl in Hnd. apply NoDup_cons in Hnd as [Ha Hnd].
    apply Forall_cons in Hs as [Hsa Hs]. simpl.
    rewrite session_merge_spec.
    destruct (decide (pk a ∈ pk <$> mediciones db /\ _)) as [[Hin Hl]|Hna].
    + rewrite decide_False; [by eexists|].
      intros [H _]%Forall_cons. apply H in Hin. by rewrite Hl in Hin.
    + rewrite (decide_True _ _ Hsa). simpl.
      specialize (IH {| sensores := sensores db;
                        mediciones := upsert a (mediciones db) |} Hnd Hs).
      assert (Hhead : pk a ∈ pk <$> mediciones db ->
                      Is_true (legible (fecha_hora a))).
      { intros Hin. destruct (legible (fecha_hora a)) eqn:Hl; [done|].
        by destruct Hna. }
      destruct (decide (reemplazables _ ms)) as [Hr|Hr];
        rewrite (reemplazables_upsert _ _ _ Ha) in Hr.
      * rewrite decide_True by by constructor. done.
      * rewrite decide_False; [done|]. by intros [_ ?]%Forall_cons.
Qed.

Lemma validar_validos i items acc ms :
  validos items ms -> validar i items acc = Ok (inr (acc ++ ms)).
Proof.
  intros Hv. revert i acc.
  induction Hv as [|item m items ms Hm _ IH]; intros i acc; simpl.
  - by rewrite app_nil_r.
  - rewrite Hm, IH. by rewrite <- app_assoc.
Qed.

(** The loop stops at the first item that does not validate. *)
Lemma validar_invalido i pre item post acc ms e :
  validos pre ms -> leer_item item = Raise e ->
  validar i (pre ++ item :: post) acc
  = if atrapada e then Ok (inl (item_invalido (i + length pre) e))
    else Raise e.
Proof.
  intros Hv He. revert i acc.
  induction Hv as [|item' m pre ms Hm _ IH]; intros i acc; simpl.
  - rewrite He, Nat.add_0_r. by destruct e.
  - rewrite Hm, IH. by rewrite Nat.add_succ_r.
Qed.

(** Either every item validates or there is a first one that does not. *)
Lemma validos_o_invalido items :
  (exists ms, validos items ms)
  \/ (exists pre item post ms e,
        items = pre ++ item :: post /\ validos pre ms
        /\ leer_item item = Raise e).
Proof.
  induction items as [|item items IH].
  - left. exists []. constructor.
  - destruct (leer_item item) as [m|e] eqn:Hitem.
    + destruct IH as [[ms Hms]|(pre & it & post & ms & e & -> & Hpre & He)].
      * left. exists (m :: ms). by constructor.
      * right. exists (item :: pre), it, post, (m :: ms), e.
        split_and!; [done|by constructor|done].
    + right. exists [], item, items, [], e. split_and!; [done|constructor|done].
Qed.

Lemma PNone_o_no (payload : pyval float) : payload = PNone \/ payload <> PNone.
Proof. destruct payload; auto. Qed.

Lemma crear_mediciones_unfold db payload :
  payload <> PNone ->
  crear_mediciones db payload
  = match validar 1 (items_de payload) [] with
    | Raise e => (Raise e, db)
    | Ok (inl r) => (Ok r, db)
    | Ok (inr ms) =>
        match merge_all db ms with
        | Ok tx => (Ok (ok (Insertados (length ms)) 201), tx)
        | Raise e =>
            (Ok (fail "No se pudieron guardar las mediciones" 400
                   (Some (str_exn e))), db)
        end
    end.
Proof. by destruct payload. Qed.

(** The route on a batch whose items all validate: the commit, or the
    rollback with the text of the error. *)
Lemma crear_mediciones_validos db payload ms :
  payload <> PNone -> validos (items_de payload) ms ->
  crear_mediciones db payload
  = match merge_all db ms with
    | Ok tx => (Ok (ok (Insertados (length ms)) 201), tx)
    | Raise e =>
        (Ok (fail "No se pudieron guardar las mediciones" 400
               (Some (str_exn e))), db)
    end.
Proof.
  intros Hp Hv. rewrite crear_mediciones_unfold by done.
  by rewrite (validar_validos _ _ _ _ Hv).
Qed.


(** The route on a batch with an item that does not validate. *)
Lemma crear_mediciones_invalido db payload pre item post ms e :
  payload <> PNone -> items_de payload = pre ++ item :: post ->
  validos pre ms -> leer_item item = Raise e ->
  crear_mediciones db payload
  = (if atrapada e then Ok (item_invalido (S (length pre)) e) else Raise e,
     db).
Proof.
  intros Hp Hitems Hv He. rewrite crear_mediciones_unfold by done.
  rewrite Hitems, (validar_invalido _ _ _ _ _ _ _ Hv He). simpl.
  by destruct (atrapada e).
Qed.

(** A request is answered from one of three places: the commit, a
    [return fail], or an exception that the loop does not catch. *)
Lemma crear_mediciones_cases db payload :
  (exists ms,
      validos (items_de payload) ms /\ sensores_conocidos db ms
      /\ payload <> PNone
      /\ crear_mediciones db payload
         = (Ok (ok (Insertados (length ms)) 201),
            {| sensores := sensores db;
               mediciones := upsert_all (mediciones db) ms |}))
  \/ (exists msg details,
        crear_mediciones db payload = (Ok (fail msg 400 details), db))
  \/ (exists pre item post ms e,
        items_de payload = pre ++ item :: post /\ validos pre ms
        /\ leer_item item = Raise e /\ atrapada e = false
        /\ crear_mediciones db payload = (Raise e, db)).
Proof.
  destruct (PNone_o_no payload) as [->|Hp]; [right; left; by eexists _, _|].
  destruct (validos_o_invalido (items_de payload))
    as [[ms Hms]|(pre & it & post & ms & e & Hit & Hpre & He)].
  - rewrite (crear_mediciones_validos _ _ _ Hp Hms).
    destruct (merge_all db ms) as [tx|e] eqn:Hm.
    + apply merge_all_Ok in Hm as [-> Hs]. left. by exists ms.
    + right; left. by eexists _, _.
  - rewrite (crear_mediciones_invalido _ _ _ _ _ _ _ Hp Hit Hpre He).
    destruct (atrapada e) eqn:Hcaught.
    + right; left. by eexists _, _.
    + right; right. by exists pre, it, post, ms, e.
Qed.

(** The sensors are never touched. *)
Lemma crear_mediciones_sensores db payload :
  sensores (crear_mediciones db payload).2 = sensores db.
Proof.
  destruct (crear_mediciones_cases db payload)
    as [(ms & _ & _ & _ & ->)|[(msg & det & ->)
                              |(? & ? & ? & ? & e & _ & _ & _ & _ & ->)]];
    done.
Qed.

Lemma wf_upsert_all db ms :
  wf db -> sensores_conocidos db ms ->
  wf {| sensores := sensores db; mediciones := upsert_all (mediciones db) ms |}.
Proof.
  intros [Hpk Hfk] Hms. split.
  - by apply upsert_all_NoDup.
  - apply Forall_forall. intros r [Hr|Hr]%upsert_all_elem; simpl.
    + by eapply Forall_forall in Hms.
    + by eapply Forall_forall in Hfk.
Qed.

(** The constraints of the schema survive every request. *)
Lemma crear_mediciones_wf db payload :
  wf db -> wf (crear_mediciones db payload).2.
Proof.
  intros Hwf.
  destruct (crear_mediciones_cases db payload)
    as [(ms & _ & Hs & _ & ->)|[(msg & det & ->)
                               |(? & ? & ? & ? & e & _ & _ & _ & _ & ->)]];
    [|done..].
  by apply wf_upsert_all.
Qed.

Lemma lecturas_unique k rows :
  NoDup (pk <$> rows) -> (length (lecturas k rows) <= 1)%nat.
Proof.
  induction rows as [|r rows IH]; csimpl; [lia|].
  intros [Hr Hnd]%NoDup_cons. unfold lecturas. rewrite filter_cons.
  destruct (decide (pk r = k)) as [<-|Hne]; [|by apply IH].
  fold (lecturas (pk r) rows). rewrite lecturas_nil by done. simpl. lia.
Qed.

Lemma leer_item_dict item m :
  leer_item item = Ok m -> item <> PNone /\ items_de item = [item].
Proof. by destruct item. Qed.



(** A reading that writes a stored pair whose instant cannot be read back
    is refused: the answer is the 400 of the rollback with the text of the
    driver, and the stored row stays. *)
Lemma crear_mediciones_ilegible db item m :
  leer_item item = Ok m -> pk m ∈ pk <$> mediciones db ->
  legible (fecha_hora m) = false ->
  crear_mediciones db item
  = (Ok (fail "No se pudieron guardar las mediciones" 400
           (Some (range_error_text (fecha_hora m)))), db).
Proof.
  intros Hitem Hin Hl. destruct (leer_item_dict _ _ Hitem) as [Hp Hitems].
  assert (Hv : validos (items_de item) [m]).
  { rewrite Hitems. by repeat constructor. }
  rewrite (crear_mediciones_validos _ _ _ Hp Hv). simpl.
  by rewrite session_merge_spec, decide_True.
Qed.



End IngestFacts.

(** ** Timestamps *)

Section ParseFacts.
Context {float : Type} {RT : PyRuntime float}.

Implicit Types (db : Store float) (payload item : pyval float).
Implicit Types (m r : Medicion float) (rows ms : list (Medicion float)).
Implicit Types (items pre post : list (pyval float)).

Lemma replace_Z_app s1 s2 :
  replace_Z (s1 +:+ s2) = replace_Z s1 +:+ replace_Z s2.
Proof.
  induction s1 as [|c s1 IH]; simpl; [done|].
  destruct (Ascii.eqb c "Z"); simpl; by rewrite IH.
Qed.

(** The one way in which [parse_iso_datetime] fails. *)
Lemma parse_iso_datetime_total v :
  (exists dt, parse_iso_datetime v = Ok dt /\ is_Some (tzinfo dt))
  \/ parse_iso_datetime v = Raise (ValueError iso_guidance).
Proof.
  destruct v; simpl; auto.
  destruct (fromisoformat _) as [dt|]; [|auto].
  destruct (tzinfo dt) eqn:Htz; left; eexists; split; try done.
Qed.

Lemma parse_iso_datetime_Raise v e :
  parse_iso_datetime v = Raise e -> e = ValueError iso_guidance.
Proof.
  destruct (parse_iso_datetime_total v) as [(dt & -> & _)| ->]; congruence.
Qed.

Lemma instant_replace_tzinfo_utc dt :
  instant (replace_tzinfo dt utc) = wall_clock dt.
Proof. unfold instant, wall_clock, utc. simpl. lia. Qed.

(** C7. A text that the library reads as a datetime without zone is taken
    as UTC: the instant is its wall clock at offset zero.  A final [Z] is
    read as the offset [+00:00].  Hence a text without zone and the same
    text followed by [Z] give the same instant, whenever the library reads
    the text with offset [+00:00] as the same wall clock at offset zero. *)
Theorem naive_timestamp_is_utc :
  (forall s dt,
      fromisoformat (replace_Z s) = Some dt -> tzinfo dt = None ->
      exists dt',
        parse_iso_datetime (PStr s) = Ok dt'
        /\ tzinfo dt' = Some 0
        /\ instant dt' = wall_clock dt)
  /\ (forall s,
        parse_iso_datetime (PStr (s +:+ "Z"))
        = parse_iso_datetime (PStr (s +:+ "+00:00")))
  /\ (forall s dt dtz,
        fromisoformat (replace_Z s) = Some dt -> tzinfo dt = None ->
        fromisoformat (replace_Z s +:+ "+00:00") = Some dtz ->
        tzinfo dtz = Some 0 -> wall_clock dtz = wall_clock dt ->
        exists a b,
          parse_iso_datetime (PStr s) = Ok a
          /\ parse_iso_datetime (PStr (s +:+ "Z")) = Ok b
          /\ instant a = instant b).
Proof.
  split_and!.
  - intros s dt Hs Htz. exists (replace_tzinfo dt utc). simpl.
    rewrite Hs, Htz. split_and!; [done..|apply instant_replace_tzinfo_utc].
  - intros s. simpl. by rewrite !replace_Z_app.
  - intros s dt dtz Hs Htz Hsz Hz Hwall.
    exists (replace_tzinfo dt utc), dtz. simpl.
    rewrite Hs, Htz, replace_Z_app.
    change (replace_Z "Z") with "+00:00"%string. rewrite Hsz, Hz.
    split_and!; [done..|].
    rewrite instant_replace_tzinfo_utc. unfold instant. rewrite Hz. simpl. lia.
Qed.

End ParseFacts.

(** ** Query *)

Section QueryFacts.
Context {float : Type} {RT : PyRuntime float}.

Implicit Types (db : Store float) (payload item : pyval float).
Implicit Types (m r : Medicion float) (rows ms : list (Medicion float)).
Implicit Types (items pre post : list (pyval float)).

Global Instance precede_trans o : Transitive (@precede float o).
Proof. intros x y z. destruct o; simpl; lia. Qed.

Global Instance precede_total o : Total (@precede float o).
Proof. intros x y. destruct o; simpl; lia. Qed.

Lemma cota_Raise o e : cota o = Raise e -> e = ValueError iso_guidance.
Proof.
  unfold cota. destruct (truthy_str o) as [s|]; [|done].
  destruct (parse_iso_datetime (PStr s)) as [dt|e'] eqn:Hp; [done|].
  apply parse_iso_datetime_Raise in Hp as ->. simpl. congruence.
Qed.

(** The statement built from bounds that parse. *)
Lemma construir_consulta_Ok id desde hasta order lim d h :
  cota desde = Ok d -> cota hasta = Ok h ->
  exists q,
    construir_consulta id desde hasta order lim = Ok q
    /\ (forall r, Is_true (whereclause q r)
                  <-> en_rango id (instant <$> d) (instant <$> h) r)
    /\ order_by_clause q = Some (direccion order)
    /\ limit_clause q = Some lim.
Proof.
  unfold cota, construir_consulta, direccion, en_rango.
  destruct (truthy_str desde) as [sd|];
    [destruct (parse_iso_datetime (PStr sd)) as [dd|]; [|done]|];
    (destruct (truthy_str hasta) as [sh|];
      [destruct (parse_iso_datetime (PStr sh)) as [dh|]; [|done]|]);
    simpl; intros [= <-] [= <-]; eexists; (split; [done|]);
    (split; [|by destruct (String.eqb order "asc")]);
    intros r; destruct (String.eqb order "asc"); simpl;
    rewrite ?andb_True, ?Is_true_true, ?Z.eqb_eq, ?Z.leb_le; tauto.
Qed.

(** A bound that does not parse ends the construction. *)
Lemma construir_consulta_Raise id desde hasta order lim e :
  cota desde = Raise e
  \/ (exists d, cota desde = Ok d /\ cota hasta = Raise e) ->
  construir_consulta id desde hasta order lim
  = Raise (ValueError iso_guidance).
Proof.
  unfold cota, construir_consulta.
  intros [Hd|(d & Hd & Hh)].
  - destruct (truthy_str desde) as [sd|]; [|done].
    destruct (parse_iso_datetime (PStr sd)) as [dd|e'] eqn:Hp; [done|].
    by apply parse_iso_datetime_Raise in Hp as ->.
  - destruct (truthy_str hasta) as [sh|]; [|done].
    destruct (parse_iso_datetime (PStr sh)) as [dh|e'] eqn:Hp; [done|].
    apply parse_iso_datetime_Raise in Hp as ->.
    destruct (truthy_str desde) as [sd|]; [|done].
    by destruct (parse_iso_datetime (PStr sd)).
Qed.


(** The driver raises nothing but its [ValueError]. *)
Lemma fetch_Raise rows e :
  fetch rows = Raise e -> exists r, r ∈ rows /\ legible (fecha_hora r) = false
                                    /\ e = ValueError (range_error_text (fecha_hora r)).
Proof.
  induction rows as [|r rows IH]; simpl; [done|].
  destruct (legible (fecha_hora r)) eqn:Hr.
  - destruct (fetch rows) as [rows'|e'] eqn:Hf; simpl; [done|].
    intros [= <-]. destruct (IH eq_refl) as (r' & Hin & Hl & He).
    exists r'. split; [by right|done].
  - intros [= <-]. exists r. split; [by left|done].
Qed.

Lemma execute_ordered db q o n :
  order_by_clause q = Some o -> limit_clause q = Some n ->
  execute db q
  = if limit_ok n
    then fetch (take (Z.to_nat n)
                  (merge_sort (precede o)
                     (filter (fun m => Is_true (whereclause q m))
                        (mediciones db))))
    else Raise (DBError (limit_error_text n)).
Proof. unfold execute. by intros -> ->. Qed.

(** The route once [id_sensor] is there. *)
Lemma consultar_mediciones_id db a id :
  args_get a "id_sensor" None type_int = Some id -> id <> 0 ->
  consultar_mediciones db a
  = match (q ← construir_consulta id (args_lookup a "desde")
                 (args_lookup a "hasta")
                 (lower (args_get a "order" "desc"%string Some))
                 (args_get a "limit" 100 Z_of_string);
           rows ← execute db q;
           Ok (ok (Filas (fila_de <$> rows)) 200)) with
    | Ok r => r
    | Raise (ValueError msg) => fail msg 400 None
    | Raise e => fail "Error al consultar mediciones" 400 (Some (str_exn e))
    end.
Proof.
  intros Hid Hne. unfold consultar_mediciones. rewrite Hid.
  by destruct id.
Qed.

(** Without [id_sensor] the route answers at once. *)
Lemma consultar_mediciones_sin_id db a :
  args_get a "id_sensor" None type_int = None
  \/ args_get a "id_sensor" None type_int = Some 0 ->
  consultar_mediciones db a = id_sensor_obligatorio.
Proof. unfold consultar_mediciones. by intros [-> | ->]. Qed.

Lemma construir_consulta_order id desde hasta order order' lim :
  direccion order = direccion order' ->
  construir_consulta id desde hasta order lim
  = construir_consulta id desde hasta order' lim.
Proof.
  unfold direccion, construir_consulta. intros Ho.
  destruct (String.eqb order "asc"), (String.eqb order' "asc"); done.
Qed.

(** *** The [order] token *)

Lemma lower_char_a c : Ascii.eqb (lower_char c) "a" = letra "a" "A" c.
Proof. destruct c as [[] [] [] [] [] [] [] []]; reflexivity. Qed.

Lemma lower_char_s c : Ascii.eqb (lower_char c) "s" = letra "s" "S" c.
Proof. destruct c as [[] [] [] [] [] [] [] []]; reflexivity. Qed.

Lemma lower_char_c c : Ascii.eqb (lower_char c) "c" = letra "c" "C" c.
Proof. destruct c as [[] [] [] [] [] [] [] []]; reflexivity. Qed.

(** The lowered token is [asc] exactly for the tokens of [pide_asc]. *)
Lemma lower_asc t : String.eqb (lower t) "asc" = pide_asc t.
Proof.
  destruct t as [|c1 [|c2 [|c3 [|c4 t]]]]; simpl;
    rewrite ?lower_char_a, ?lower_char_s, ?lower_char_c;
    repeat (destruct (letra _ _ _); simpl; try done); done.
Qed.

(** The direction that the route takes is the one that the query string
    asks for. *)
Lemma direccion_lower a :
  direccion (lower (args_get a "order" "desc"%string Some))
  = direccion_pedida a.
Proof.
  unfold direccion, direccion_pedida, args_get.
  destruct (args_lookup a "order") as [t|]; [|done]. by rewrite lower_asc.
Qed.


(** *** The rows of an answer *)












(** C8. A query without [id_sensor], or whose [id_sensor] reads as the
    integer zero, is answered 400 with the message that the parameter is
    mandatory, and no rows. *)
Theorem query_requires_sensor_id db a :
  args_lookup a "id_sensor" = None
  \/ (exists s, args_lookup a "id_sensor" = Some s /\ Z_of_string s = Some 0) ->
  consultar_mediciones db a
  = fail "Parámetro 'id_sensor' es obligatorio" 400 None.
Proof.
  intros H. apply consultar_mediciones_sin_id. unfold args_get, type_int.
  destruct H as [->|(s & -> & ->)]; auto.
Qed.

(** C10. A query whose [id_sensor] is there but is no integer gets the
    answer of a query without [id_sensor]: the 400 of the mandatory
    parameter. *)
Theorem query_sensor_id_not_integer db a s :
  args_lookup a "id_sensor" = Some s -> Z_of_string s = None ->
  consultar_mediciones db a
  = fail "Parámetro 'id_sensor' es obligatorio" 400 None
  /\ forall a',
      args_lookup a' "id_sensor" = None ->
      consultar_mediciones db a' = consultar_mediciones db a.
Proof.
  intros Hs Hint.
  assert (Ha : consultar_mediciones db a = id_sensor_obligatorio).
  { apply consultar_mediciones_sin_id. unfold args_get, type_int.
    rewrite Hs, Hint. auto. }
  split; [done|]. intros a' Ha'. rewrite Ha.
  apply consultar_mediciones_sin_id. unfold args_get. rewrite Ha'. auto.
Qed.

End QueryFacts.

(** ** Timestamps that do not parse *)

Section TimestampErrors.
Context {float : Type} {RT : PyRuntime float}.

Implicit Types (db : Store float) (payload item : pyval float).
Implicit Types (m r : Medicion float) (rows ms : list (Medicion float)).
Implicit Types (items pre post : list (pyval float)).

Lemma leer_item_fecha_hora item v_id id v_fh :
  getitem item "id_sensor" = Ok v_id -> py_int v_id = Ok id ->
  getitem item "fecha_hora" = Ok v_fh ->
  (forall dt, parse_iso_datetime v_fh <> Ok dt) ->
  leer_item item = Raise (ValueError iso_guidance).
Proof.
  intros Hid Hint Hfh Hparse. unfold leer_item.
  rewrite Hid. simpl. rewrite Hint. simpl. rewrite Hfh. simpl.
  destruct (parse_iso_datetime_total v_fh) as [(dt & Hdt & _)| ->]; [|done].
  by destruct (Hparse dt).
Qed.

(** C9, as the code has it.  A timestamp that does not parse raises a
    [ValueError] whose message is the fixed guidance on the expected
    format; the message does not depend on the value.  The caller gets it
    as a 400: the query answers with the guidance as its error, the ingest
    with the guidance after the number of the item. *)
Theorem invalid_timestamp_gets_fixed_guidance :
  (forall v,
      (forall dt, parse_iso_datetime v <> Ok dt) ->
      parse_iso_datetime v = Raise (ValueError iso_guidance))
  /\ (forall db a id e,
        args_get a "id_sensor" None type_int = Some id -> id <> 0 ->
        cota (args_lookup a "desde") = Raise e
        \/ (exists d, cota (args_lookup a "desde") = Ok d
                      /\ cota (args_lookup a "hasta") = Raise e) ->
        consultar_mediciones db a = fail iso_guidance 400 None)
  /\ (forall db payload pre item post ms v_id id v_fh,
        payload <> PNone -> items_de payload = pre ++ item :: post ->
        validos pre ms ->
        getitem item "id_sensor" = Ok v_id -> py_int v_id = Ok id ->
        getitem item "fecha_hora" = Ok v_fh ->
        (forall dt, parse_iso_datetime v_fh <> Ok dt) ->
        crear_mediciones db payload
        = (Ok (fail ("Ítem #" +:+ pretty (S (length pre)) +:+ " inválido: "
                     +:+ iso_guidance) 400 None), db)).
Proof.
  split_and!.
  - intros v Hv.
    destruct (parse_iso_datetime_total v) as [(dt & Hdt & _)|]; [|done].
    by destruct (Hv dt).
  - intros db a id e Hid Hne Hcota.
    rewrite (consultar_mediciones_id _ _ _ Hid Hne).
    by rewrite (construir_consulta_Raise _ _ _ _ _ e Hcota).
  - intros db payload pre item post ms v_id id v_fh Hp Hit Hpre Hid Hint Hfh Hv.
    pose proof (leer_item_fecha_hora _ _ _ _ Hid Hint Hfh Hv) as He.
    by rewrite (crear_mediciones_invalido _ _ _ _ _ _ _ Hp Hit Hpre He).
Qed.

End TimestampErrors.

(** ** The properties at sample inputs *)


Lemma wf_db_una : wf db_una.
Proof. apply (bool_decide_unpack _). vm_compute. exact I. Qed.

Lemma wf_db_tres : wf db_tres.
Proof. apply (bool_decide_unpack _). vm_compute. exact I. Qed.

Example db_tres_rows :
  (fun m => (id_sensor m, fecha_hora m)) <$> mediciones db_tres
  = [(1, 63871459200000000); (2, 63871459200000000);
     (1, 63871545600000000); (1, 63871372800000000)].
Proof. vm_compute. reflexivity. Qed.

(** The instant of [t0] lies five hours before the first instant that a
    [datetime] holds at offset zero. *)
Example t0_before_year_one :
  fecha_hora m0_5 = instant datetime_min - 5 * 3600 * 1000000
  /\ legible (fecha_hora m0_5) = false
  /\ legible (fecha_hora m1_9) = true.
Proof. vm_compute. auto. Qed.

(** C1, where the code departs from it.  A reading of sensor 1 at
    [0001-01-01T00:00:00+05:00] with value 5 is accepted and stored.  A
    second reading for the same pair, with value 9, is not written: the
    row of the pair cannot be read back, the request is answered with the
    400 of the rollback, and the pair keeps the reading with value 5. *)
Theorem stored_pair_out_of_range_is_not_replaced :
  crear_mediciones db_vacia (lectura 1 t0 5)
  = (Ok (ok (Insertados 1) 201), db_antigua)
  /\ lecturas (pk m0_5) (mediciones db_antigua) = [m0_5]
  /\ leer_item (lectura 1 t0 9) = Ok m0_9
  /\ pk m0_9 = pk m0_5
  /\ valor m0_9 <> valor m0_5
  /\ crear_mediciones db_antigua (lectura 1 t0 9)
     = (Ok (fail "No se pudieron guardar las mediciones" 400
              (Some (range_error_text (fecha_hora m0_9)))), db_antigua).
Proof.
  split_and!; try (vm_compute; reflexivity).
  intros H. vm_compute in H. discriminate.
Qed.


(** C3, where the code departs from it.  In a batch whose second item has
    [null] for its [valor], the float coercion of item 2 fails with a
    [TypeError]; in a batch whose second item has the float infinity (the
    JSON number [1e400]) for its [id_sensor], the integer coercion of item
    2 fails with an [OverflowError].  The validation loop catches neither:
    the exception leaves the route, no answer names item 2, and nothing is
    stored. *)
Theorem uncaught_coercion_error_leaves_the_route :
  leer_item con_valor_nulo = Raise TypeError
  /\ crear_mediciones db_vacia (PList [lectura 1 t1 5; con_valor_nulo])
     = (Raise TypeError, db_vacia)
  /\ leer_item con_id_infinito = Raise OverflowError
  /\ crear_mediciones db_vacia (PList [lectura 1 t1 5; con_id_infinito])
     = (Raise OverflowError, db_vacia).
Proof. vm_compute. auto. Qed.




Example query_bounded_answer :
  exists filas,
    consultar_mediciones db_tres consulta_acotada = ok (Filas filas) 200
    /\ campos_fila <$> filas = [(1, instant dt_t3, valor m1_30)].
Proof. eexists. split; vm_compute; reflexivity. Qed.


(** The readings at [t1 < t2 < t3] of sensor 1 come back as [t3, t2, t1]
    without [order] and with a token that is not [asc], as [t1, t2, t3]
    with [order=asc]. *)
Example query_default_order_answer :
  (exists filas,
      consultar_mediciones db_tres [("id_sensor", "1")]%string
      = ok (Filas filas) 200
      /\ campos_fila <$> filas
         = [(1, instant dt_t3, valor m1_30); (1, instant dt_t2, valor m1_20);
            (1, instant dt_t1, valor m1_10)])
  /\ (exists filas,
        consultar_mediciones db_tres
          [("id_sensor", "1"); ("order", "asc")]%string
        = ok (Filas filas) 200
        /\ campos_fila <$> filas
           = [(1, instant dt_t1, valor m1_10); (1, instant dt_t2, valor m1_20);
              (1, instant dt_t3, valor m1_30)])
  /\ (exists filas,
        consultar_mediciones db_tres
          [("id_sensor", "1"); ("order", "up")]%string
        = ok (Filas filas) 200
        /\ campos_fila <$> filas
           = [(1, instant dt_t3, valor m1_30); (1, instant dt_t2, valor m1_20);
              (1, instant dt_t1, valor m1_10)]).
Proof. split_and!; eexists; split; vm_compute; reflexivity. Qed.

(** A stored reading that cannot be read back fails the query that
    fetches it: the answer is 400 with the text of the driver. *)
Example query_out_of_range_row :
  consultar_mediciones db_antigua [("id_sensor", "1")]%string
  = fail (range_error_text (fecha_hora m0_5)) 400 None.
Proof. vm_compute. reflexivity. Qed.

Lemma naive_timestamp_is_utc_witness :
  exists a b,
    parse_iso_datetime (PStr "2025-10-14T09:30:00" : pyval PrimFloat.float)
    = Ok a
    /\ parse_iso_datetime (PStr "2025-10-14T09:30:00Z" : pyval PrimFloat.float)
       = Ok b
    /\ instant a = instant b.
Proof.
  destruct (naive_timestamp_is_utc (float := PrimFloat.float))
    as (_ & _ & Hsame).
  apply (Hsame "2025-10-14T09:30:00"%string dt_naive
           (replace_tzinfo dt_naive utc)).
  - vm_compute. reflexivity.
  - reflexivity.
  - vm_compute. reflexivity.
  - reflexivity.
  - vm_compute. reflexivity.
Defined.

Lemma query_requires_sensor_id_witness :
  consultar_mediciones db_tres [("limit", "5")]%string
  = fail "Parámetro 'id_sensor' es obligatorio" 400 None
  /\ consultar_mediciones db_tres [("id_sensor", "0")]%string
     = fail "Parámetro 'id_sensor' es obligatorio" 400 None.
Proof.
  split.
  - apply query_requires_sensor_id. left. reflexivity.
  - apply query_requires_sensor_id. right. exists "0"%string.
    split; [reflexivity|vm_compute; reflexivity].
Defined.

Lemma query_sensor_id_not_integer_witness :
  consultar_mediciones db_tres [("id_sensor", "abc")]%string
  = fail "Parámetro 'id_sensor' es obligatorio" 400 None
  /\ consultar_mediciones db_tres []
     = consultar_mediciones db_tres [("id_sensor", "abc")]%string.
Proof.
  destruct (query_sensor_id_not_integer db_tres
              [("id_sensor", "abc")]%string "abc"%string) as [Hresp Hsame].
  - reflexivity.
  - vm_compute. reflexivity.
  - split; [exact Hresp|]. apply Hsame. reflexivity.
Defined.

Lemma invalid_timestamp_gets_fixed_guidance_witness :
  parse_iso_datetime (PStr "31/12/2025" : pyval PrimFloat.float)
  = Raise (ValueError iso_guidance)
  /\ consultar_mediciones db_tres
       [("id_sensor", "1"); ("hasta", "31/12/2025")]%string
     = fail iso_guidance 400 None
  /\ crear_mediciones db_vacia lote_con_fecha_mala
     = (Ok (fail ("Ítem #" +:+ pretty 2%nat +:+ " inválido: " +:+ iso_guidance)
              400 None), db_vacia).
Proof.
  destruct (invalid_timestamp_gets_fixed_guidance (float := PrimFloat.float))
    as (Hparse & Hquery & Hingest).
  split_and!.
  - apply Hparse. intros dt H. vm_compute in H. discriminate.
  - apply (Hquery db_tres _ 1 (ValueError iso_guidance)).
    + vm_compute. reflexivity.
    + discriminate.
    + right. exists None. split; vm_compute; reflexivity.
  - apply (Hingest db_vacia lote_con_fecha_mala [lectura 1 t1 5]
             (lectura 1 "ayer" 5) [] [medicion_de (lectura 1 t1 5)]
             (PInt 1) 1 (PStr "ayer")).
    + discriminate.
    + reflexivity.
    + constructor; [vm_compute; reflexivity|constructor].
    + reflexivity.
    + reflexivity.
    + reflexivity.
    + intros dt H. vm_compute in H. discriminate.
Defined.

(** C9 as the spec words it fails: the message of the error for the
    timestamp [31/12/2025] is the fixed guidance, in which that value does
    not occur. *)
Lemma invalid_timestamp_message_omits_value :
  parse_iso_datetime (PStr "31/12/2025" : pyval PrimFloat.float)
  = Raise (ValueError iso_guidance)
  /\ String.index 0 "31/12/2025" iso_guidance = None
  /\ consultar_mediciones db_tres
       [("id_sensor", "1"); ("desde", "31/12/2025")]%string
     = fail "fecha_hora debe venir en formato ISO 8601 (ej: 2025-10-14T09:30:00Z)"
         400 None.
Proof. vm_compute. auto. Qed.

Example index_finds_substrings :
  String.index 0 "ISO 8601" iso_guidance = Some 33%nat.
Proof. vm_compute. reflexivity. Qed.

(** * Further properties of the routes *)

(** ** Ingest: what a request can and cannot do to the table *)

Section IngestFrame.
Context {float : Type} {RT : PyRuntime float}.

Implicit Types (db : Store float) (payload item : pyval float).
Implicit Types (m r : Medicion float) (rows ms : list (Medicion float)).
Implicit Types (items pre post : list (pyval float)).

Lemma upsert_length m rows :
  (length rows <= length (upsert m rows) <= S (length rows))%nat.
Proof.
  rewrite <- !(length_fmap pk), upsert_keys.
  destruct (decide _); rewrite ?length_app; simpl; lia.
Qed.

Lemma upsert_all_length rows ms :
  (length rows <= length (upsert_all rows ms)
   <= length rows + length ms)%nat.
Proof.
  revert rows. induction ms as [|m ms IH]; intros rows; simpl; [lia|].
  pose proof (IH (upsert m rows)). pose proof (upsert_length m rows). lia.
Qed.

Lemma validos_length items ms : validos items ms -> length items = length ms.
Proof. apply Forall2_length. Qed.

(** Ingest never deletes: every pair stored before a request is stored
    after it, whatever the body, and the table of sensors is untouched. *)
Theorem ingest_keeps_stored_pairs db payload :
  sensores (crear_mediciones db payload).2 = sensores db
  /\ forall k,
      k ∈ pk <$> mediciones db ->
      k ∈ pk <$> mediciones (crear_mediciones db payload).2.
Proof.
  destruct (crear_mediciones_cases db payload)
    as [(ms & _ & _ & _ & ->)|[(msg & det & ->)|(? & ? & ? & ? & e & _ & _ & _ & _ & ->)]];
    simpl; split; try done.
  intros k Hk. by apply upsert_all_key_mono.
Qed.

(** A request adds at most one row per item of its body and removes
    none. *)
Theorem ingest_row_count_bounds db payload :
  (length (mediciones db)
   <= length (mediciones (crear_mediciones db payload).2)
   <= length (mediciones db) + length (items_de payload))%nat.
Proof.
  destruct (crear_mediciones_cases db payload)
    as [(ms & Hv & _ & _ & ->)|[(msg & det & ->)|(? & ? & ? & ? & e & _ & _ & _ & _ & ->)]];
    simpl; try lia.
  rewrite (validos_length _ _ Hv). apply upsert_all_length.
Qed.

(** No request leaves two rows with the same pair, nor a row of an
    unknown sensor: a table that satisfies the primary key and the foreign
    key of the schema satisfies them after every request, whatever the
    body, and every pair holds one row at most. *)
Theorem ingest_preserves_schema db payload :
  wf db ->
  NoDup (pk <$> mediciones (crear_mediciones db payload).2)
  /\ (forall r, r ∈ mediciones (crear_mediciones db payload).2 ->
                id_sensor r ∈ sensores (crear_mediciones db payload).2)
  /\ forall k,
      (length (lecturas k (mediciones (crear_mediciones db payload).2))
       <= 1)%nat.
Proof.
  intros Hwf. destruct (crear_mediciones_wf db payload Hwf) as [Hpk Hfk].
  split_and!.
  - exact Hpk.
  - by apply Forall_forall.
  - intros k. by apply lecturas_unique.
Qed.

End IngestFrame.

(** ** Ingest: the possible answers *)

Section IngestOutcomes.
Context {float : Type} {RT : PyRuntime float}.

Implicit Types (db : Store float) (payload item v : pyval float).

Lemma getitem_Raise item key e :
  getitem item key = Raise e -> e = KeyError key \/ e = TypeError.
Proof.
  destruct item; simpl; try (intros [= <-]; auto).
  destruct (dict_get _ _); intros [= <-]; auto.
Qed.

Lemma py_int_Raise v e :
  py_int v = Raise e ->
  (exists msg, e = ValueError msg) \/ e = TypeError \/ e = OverflowError.
Proof.
  destruct v; simpl; try (intros [= <-]; auto); try done.
  - destruct (float_trunc _); [done|].
    destruct (float_is_nan _); intros [= <-]; eauto.
  - destruct (Z_of_string _); [done|]. intros [= <-]; eauto.
Qed.

Lemma py_float_Raise v e :
  py_float v = Raise e ->
  (exists msg, e = ValueError msg) \/ e = TypeError \/ e = OverflowError.
Proof.
  destruct v; simpl; try (intros [= <-]; auto); try done.
  - destruct (float_of_Z _); [done|]. intros [= <-]; auto.
  - destruct (float_of_Z _); [done|]. intros [= <-]; auto.
  - destruct (float_of_string _); [done|]. intros [= <-]; eauto.
Qed.

(** What the validation of one item can raise. *)
Lemma leer_item_Raise item e :
  leer_item item = Raise e ->
  atrapada e = true \/ e = TypeError \/ e = OverflowError.
Proof.
  unfold leer_item.
  destruct (getitem item "id_sensor") as [v1|e1] eqn:H1; simpl;
    [|intros [= <-]; apply getitem_Raise in H1 as [->| ->]; auto].
  destruct (py_int v1) as [n|e2] eqn:H2; simpl;
    [|intros [= <-]; apply py_int_Raise in H2 as [[msg ->]|[->| ->]]; auto].
  destruct (getitem item "fecha_hora") as [v3|e3] eqn:H3; simpl;
    [|intros [= <-]; apply getitem_Raise in H3 as [->| ->]; auto].
  destruct (parse_iso_datetime v3) as [dt|e4] eqn:H4; simpl;
    [|intros [= <-]; apply parse_iso_datetime_Raise in H4 as ->; auto].
  destruct (getitem item "valor") as [v5|e5] eqn:H5; simpl;
    [|intros [= <-]; apply getitem_Raise in H5 as [->| ->]; auto].
  destruct (py_float v5) as [x|e6] eqn:H6; simpl; [done|].
  intros [= <-]; apply py_float_Raise in H6 as [[msg ->]|[->| ->]]; auto.
Qed.

(** The route has three outcomes.  It answers 201 with the number of
    items of the body; or it answers 400, and then nothing was stored; or
    a [TypeError] or an [OverflowError] of a coercion leaves it, and then
    nothing was stored either.  The table changes only with a 201. *)
Theorem ingest_outcomes db payload :
  match crear_mediciones db payload with
  | (Ok (BodyOk d, st), _) =>
      d = Insertados (length (items_de payload)) /\ st = 201
  | (Ok (BodyFail _ _, st), db') => st = 400 /\ db' = db
  | (Raise e, db') => (e = TypeError \/ e = OverflowError) /\ db' = db
  end.
Proof.
  destruct (crear_mediciones_cases db payload)
    as [(ms & Hv & _ & _ & ->)|[(msg & det & ->)|(? & it & ? & ? & e & _ & _ & He & Hc & ->)]];
    simpl.
  - by rewrite (validos_length _ _ Hv).
  - done.
  - split; [|done].
    apply leer_item_Raise in He as [He|He]; [congruence|done].
Qed.

(** An empty array is a valid batch: the answer is 201 with the count 0
    and nothing is stored; a body that is absent, malformed or [null] is
    answered 400. *)
Theorem ingest_empty_input db :
  crear_mediciones db (PList []) = (Ok (ok (Insertados 0) 201), db)
  /\ crear_mediciones db PNone
     = (Ok (fail "JSON inválido o vacío" 400 None), db).
Proof. split; [by destruct db|done]. Qed.

End IngestOutcomes.

(** ** Ingest: batches and fields *)

Section IngestBatches.
Context {float : Type} {RT : PyRuntime float}.

Implicit Types (db : Store float) (payload item v : pyval float).
Implicit Types (m r : Medicion float) (rows ms : list (Medicion float)).
Implicit Types (items pre post : list (pyval float)).


(** The error for an object without one of its fields names the field:
    [id_sensor] first, then [fecha_hora], then [valor], each looked up only
    when the fields before it were read. *)
Theorem ingest_missing_field_is_named db payload pre d post ms :
  payload <> PNone ->
  items_de payload = pre ++ PDict d :: post ->
  validos pre ms ->
  let respuesta campo :=
    (Ok (fail ("Ítem #" +:+ pretty (S (length pre)) +:+ " inválido: '"
               +:+ campo +:+ "'") 400 None), db) in
  (dict_get d "id_sensor" = None ->
   crear_mediciones db payload = respuesta "id_sensor"%string)
  /\ (forall v_id id,
        dict_get d "id_sensor" = Some v_id -> py_int v_id = Ok id ->
        dict_get d "fecha_hora" = None ->
        crear_mediciones db payload = respuesta "fecha_hora"%string)
  /\ (forall v_id id v_fh fh,
        dict_get d "id_sensor" = Some v_id -> py_int v_id = Ok id ->
        dict_get d "fecha_hora" = Some v_fh ->
        parse_iso_datetime v_fh = Ok fh ->
        dict_get d "valor" = None ->
        crear_mediciones db payload = respuesta "valor"%string).
Proof.
  intros Hp Hit Hpre respuesta. unfold respuesta.
  assert (Hkey : forall campo,
             leer_item (PDict d) = Raise (KeyError campo) ->
             py_repr campo = ("'" +:+ campo +:+ "'")%string ->
             crear_mediciones db payload
             = (Ok (fail ("Ítem #" +:+ pretty (S (length pre))
                          +:+ " inválido: '" +:+ campo +:+ "'") 400 None),
                db)).
  { intros campo He Hrepr.
    rewrite (crear_mediciones_invalido _ _ _ _ _ _ _ Hp Hit Hpre He).
    unfold item_invalido. simpl. by rewrite Hrepr. }
  split_and!.
  - intros H1. apply Hkey; [|reflexivity]. unfold leer_item. simpl.
    by rewrite H1.
  - intros v_id id H1 H2 H3. apply Hkey; [|reflexivity]. unfold leer_item.
    simpl. rewrite H1. simpl. rewrite H2. simpl. by rewrite H3.
  - intros v_id id v_fh fh H1 H2 H3 H4 H5. apply Hkey; [|reflexivity].
    unfold leer_item. simpl.
    rewrite H1. simpl. rewrite H2. simpl. rewrite H3. simpl. rewrite H4. simpl.
    by rewrite H5.
Qed.

(** Validation stops at the first item that does not validate, at
    position [i] counting from 1, and nothing is stored.  When that item
    fails with a [KeyError] (a missing field) or a [ValueError] (a text
    that is no integer, no timestamp or no float), the request is answered
    400 with the number [i] and the text of the error; a [TypeError] or an
    [OverflowError] leaves the route as it is. *)
Theorem ingest_rejects_first_invalid_item db payload pre item post ms e :
  payload <> PNone ->
  items_de payload = pre ++ item :: post ->
  validos pre ms ->
  leer_item item = Raise e ->
  (crear_mediciones db payload).2 = db
  /\ (forall key,
        e = KeyError key ->
        (crear_mediciones db payload).1
        = Ok (fail ("Ítem #" +:+ pretty (S (length pre)) +:+ " inválido: "
                    +:+ py_repr key) 400 None))
  /\ (forall msg,
        e = ValueError msg ->
        (crear_mediciones db payload).1
        = Ok (fail ("Ítem #" +:+ pretty (S (length pre)) +:+ " inválido: "
                    +:+ msg) 400 None))
  /\ (e = TypeError \/ e = OverflowError ->
      (crear_mediciones db payload).1 = Raise e).
Proof.
  intros Hp Hit Hpre He.
  rewrite (crear_mediciones_invalido _ _ _ _ _ _ _ Hp Hit Hpre He).
  split_and!; [done|by intros key ->|by intros msg ->|by intros [->| ->]].
Qed.


End IngestBatches.

(** ** Query after ingest, and the bounds *)

Section QueryRoundTrip.
Context {float : Type} {RT : PyRuntime float}.

Implicit Types (db : Store float) (payload item v : pyval float).
Implicit Types (m r : Medicion float) (rows ms : list (Medicion float)).




End QueryRoundTrip.

(** ** Timestamps: what the helper returns *)

Section ParseAware.
Context {float : Type} {RT : PyRuntime float}.

(** The helper never returns a datetime without zone, and a text with an
    offset keeps it: its instant is its wall clock less the offset. *)
Theorem parsed_timestamp_is_aware :
  (forall (v : pyval float) dt,
      parse_iso_datetime v = Ok dt -> exists off, tzinfo dt = Some off)
  /\ (forall s dt off,
        fromisoformat (replace_Z s) = Some dt -> tzinfo dt = Some off ->
        parse_iso_datetime (PStr s : pyval float) = Ok dt
        /\ instant dt = wall_clock dt - off).
Proof.
  split.
  - intros v dt Hv.
    destruct (parse_iso_datetime_total v) as [(dt' & Hdt' & Haware)|Hr];
      [|congruence].
    rewrite Hv in Hdt'. injection Hdt' as <-. exact Haware.
  - intros s dt off Hs Htz. simpl. rewrite Hs, Htz. split; [done|].
    unfold instant. by rewrite Htz.
Qed.

End ParseAware.

(** ** The answers do not depend on how the rows are laid out *)

Section RowOrder.
Context {float : Type} {RT : PyRuntime float}.

Implicit Types (db : Store float) (m r : Medicion float).

(** Two rows of a list without repeated keys that have the same key are
    the same row. *)
Lemma NoDup_key_inj {A B} (f : A -> B) (l : list A) x y :
  NoDup (f <$> l) -> x ∈ l -> y ∈ l -> f x = f y -> x = y.
Proof.
  induction l as [|z l IH]; csimpl; [by intros _ ?%elem_of_nil|].
  intros [Hz Hnd]%NoDup_cons [->|Hx]%elem_of_cons [->|Hy]%elem_of_cons Hf;
    [done| | |by apply IH].
  - destruct Hz. rewrite Hf. by apply list_elem_of_fmap_2.
  - destruct Hz. rewrite <- Hf. by apply list_elem_of_fmap_2.
Qed.

(** Sorting is blind to the order of its input when the order relation
    tells the rows apart. *)
Lemma merge_sort_Permutation_eq {A} (R : relation A)
    `{!forall x y, Decision (R x y), !Transitive R, !Total R} (l1 l2 : list A) :
  (forall x y, x ∈ l1 -> y ∈ l1 -> R x y -> R y x -> x = y) ->
  l1 ≡ₚ l2 -> merge_sort R l1 = merge_sort R l2.
Proof.
  intros Hasym Hperm.
  apply (StronglySorted_unique_strong R).
  - intros x y Hx Hy. apply Hasym.
    + by rewrite merge_sort_Permutation in Hx.
    + by rewrite merge_sort_Permutation, <- Hperm in Hy.
  - by apply StronglySorted_merge_sort.
  - by apply StronglySorted_merge_sort.
  - by rewrite !merge_sort_Permutation.
Qed.

Lemma execute_Permutation db db' q id o n :
  pk_unique db -> mediciones db ≡ₚ mediciones db' ->
  (forall r, Is_true (whereclause q r) -> id_sensor r = id) ->
  order_by_clause q = Some o -> limit_clause q = Some n ->
  execute db q = execute db' q.
Proof.
  intros Hpk Hperm Hid Ho Hn.
  rewrite !(execute_ordered _ _ _ _ Ho Hn).
  destruct (limit_ok n); [|done]. do 2 f_equal.
  apply merge_sort_Permutation_eq;
    [apply _|apply _| |by apply (filter_Permutation _)].
  intros x y [Hwx Hx]%list_elem_of_filter [Hwy Hy]%list_elem_of_filter Hxy Hyx.
  apply (NoDup_key_inj pk (mediciones db)); [done..|].
  unfold pk. rewrite (Hid x Hwx), (Hid y Hwy). f_equal.
  destruct o; simpl in *; lia.
Qed.

Lemma consultar_mediciones_Permutation db db' a :
  pk_unique db -> mediciones db ≡ₚ mediciones db' ->
  consultar_mediciones db a = consultar_mediciones db' a.
Proof.
  intros Hpk Hperm.
  destruct (args_get a "id_sensor" None type_int) as [id|] eqn:Hid;
    [|by rewrite !consultar_mediciones_sin_id by auto].
  destruct (decide (id = 0)) as [->|Hne];
    [by rewrite !consultar_mediciones_sin_id by auto|].
  rewrite !(consultar_mediciones_id _ _ _ Hid Hne).
  set (order := lower _). set (lim := args_get a "limit" _ _).
  destruct (cota (args_lookup a "desde")) as [d|e] eqn:Hd.
  - destruct (cota (args_lookup a "hasta")) as [h|e] eqn:Hh.
    + destruct (construir_consulta_Ok id _ _ order lim _ _ Hd Hh)
        as (q & -> & Hw & Ho & Hl).
      simpl.
      rewrite (execute_Permutation db db' q id (direccion order) lim Hpk Hperm);
        [done| |done..].
      intros r Hr. by apply Hw in Hr as [? _].
    + rewrite (construir_consulta_Raise id _ _ order lim e); [done|].
      right. by exists d.
  - rewrite (construir_consulta_Raise id _ _ order lim e); [done|]. by left.
Qed.

(** Two tables with the same rows, in whatever order they are kept, give
    the same answer to every query, as long as no pair is stored twice. *)
Theorem query_ignores_row_order db db' a :
  pk_unique db -> mediciones db ≡ₚ mediciones db' ->
  consultar_mediciones db a = consultar_mediciones db' a.
Proof. apply consultar_mediciones_Permutation. Qed.

End RowOrder.

(** ** The catalogue routes *)

Section CatalogoFacts.
Context {float : Type} {RT : PyRuntime float}.

Implicit Types (c : Catalogo float) (s : Sensor).

Global Instance por_clave_trans {A} (clave : A -> Z) :
  Transitive (por_clave clave).
Proof. intros x y z. unfold por_clave. lia. Qed.

Global Instance por_clave_total {A} (clave : A -> Z) : Total (por_clave clave).
Proof. intros x y. unfold por_clave. lia. Qed.

Lemma eq_columna_true columna x :
  Is_true (eq_columna columna x) <-> columna = Some x.
Proof.
  destruct columna as [y|]; simpl.
  - rewrite Is_true_true, Z.eqb_eq. split; [by intros ->|by intros [= ->]].
  - split; [done|discriminate].
Qed.

(** [GET /sensores] answers 200 with exactly the sensors that match the
    filters given, each once, in ascending order of [id_sensor]; a sensor
    whose station (or type) is null matches no station (or type) filter,
    and there is no limit. *)
Theorem listar_sensores_filtered_sorted c a :
  exists rows,
    listar_sensores c a = (rows, 200)
    /\ rows
       ≡ₚ filter (coincide (args_get a "id_estacion" None type_int)
                    (args_get a "id_tipo_sensor" None type_int))
            (filas_sensores c)
    /\ StronglySorted (por_clave sensor_id_sensor) rows.
Proof.
  unfold listar_sensores, ok_filas, ordenar_por. eexists. split; [done|].
  split; [|apply StronglySorted_merge_sort; apply _].
  rewrite merge_sort_Permutation.
  erewrite list_filter_iff; [done|].
  intros s. unfold coincide.
  destruct (args_get a "id_estacion" None type_int),
    (args_get a "id_tipo_sensor" None type_int); simpl;
    rewrite ?andb_True, ?eq_columna_true; tauto.
Qed.

(** A filter of [GET /sensores] whose value is no integer is ignored: the
    answer is the answer to the request without that parameter. *)
Theorem listar_sensores_ignores_bad_filter c (a a' : args) :
  ((exists txt, args_lookup a "id_estacion" = Some txt
                /\ Z_of_string txt = None)
   /\ args_lookup a' "id_estacion" = None
   /\ args_lookup a' "id_tipo_sensor" = args_lookup a "id_tipo_sensor")
  \/ ((exists txt, args_lookup a "id_tipo_sensor" = Some txt
                   /\ Z_of_string txt = None)
      /\ args_lookup a' "id_tipo_sensor" = None
      /\ args_lookup a' "id_estacion" = args_lookup a "id_estacion") ->
  listar_sensores c a = listar_sensores c a'.
Proof.
  unfold listar_sensores, args_get, type_int.
  intros [((txt & -> & ->) & -> & ->)|((txt & -> & ->) & -> & ->)]; done.
Qed.

(** [GET /estaciones] and [GET /tipos_sensor] answer 200 with every row
    of their table, each once, in ascending order of its id. *)
Theorem catalogue_lists_complete_and_sorted c :
  (exists rows,
      listar_estaciones c = (rows, 200)
      /\ rows ≡ₚ estaciones c
      /\ StronglySorted (por_clave id_estacion) rows)
  /\ (exists rows,
        listar_tipos_sensor c = (rows, 200)
        /\ rows ≡ₚ tipos_sensor c
        /\ StronglySorted (por_clave id_tipo_sensor) rows).
Proof.
  split; eexists; (split; [done|]);
    (split; [apply merge_sort_Permutation
            |apply StronglySorted_merge_sort; apply _]).
Qed.

End CatalogoFacts.

(** ** The order of the readings in a batch *)

Section BatchOrder.
Context {float : Type} {RT : PyRuntime float}.

Implicit Types (db : Store float) (payload item v : pyval float).
Implicit Types (m r : Medicion float) (rows ms : list (Medicion float)).
Implicit Types (items : list (pyval float)).

(** Up to the order of the rows, a write puts the new row in the place of
    the row that had its key. *)
Lemma upsert_Permutation m rows :
  NoDup (pk <$> rows) ->
  upsert m rows ≡ₚ m :: filter (fun r => pk r <> pk m) rows.
Proof.
  induction rows as [|r rows IH]; csimpl; [done|].
  intros [Hr Hnd]%NoDup_cons.
  destruct (decide (pk r = pk m)) as [Heq|Hne].
  - rewrite filter_cons_False by (intros Hn; by apply Hn).
    f_equiv. symmetry. clear IH.
    induction rows as [|r' rows IH]; [done|]. csimpl in *.
    apply not_elem_of_cons in Hr as [Hne Hr].
    apply NoDup_cons in Hnd as [_ Hnd].
    rewrite filter_cons_True by congruence. f_equiv. by apply IH.
  - rewrite filter_cons_True by done. rewrite IH by done. apply Permutation_swap.
Qed.

Lemma upsert_proper m rows rows' :
  NoDup (pk <$> rows) -> rows ≡ₚ rows' -> upsert m rows ≡ₚ upsert m rows'.
Proof.
  intros Hnd Hperm.
  rewrite !upsert_Permutation; [|by rewrite <- Hperm|done].
  f_equiv. by apply (filter_Permutation _).
Qed.

Lemma upsert_all_proper rows rows' ms :
  NoDup (pk <$> rows) -> rows ≡ₚ rows' ->
  upsert_all rows ms ≡ₚ upsert_all rows' ms.
Proof.
  revert rows rows'. induction ms as [|m ms IH]; intros rows rows' Hnd Hperm;
    simpl; [done|].
  apply IH; [by apply upsert_NoDup|by apply upsert_proper].
Qed.

Lemma upsert_swap a b rows :
  NoDup (pk <$> rows) -> pk a <> pk b ->
  upsert a (upsert b rows) ≡ₚ upsert b (upsert a rows).
Proof.
  intros Hnd Hab.
  assert (Hstep : forall x y,
             pk x <> pk y ->
             upsert x (upsert y rows)
             ≡ₚ x :: y :: filter (fun r => pk r <> pk x /\ pk r <> pk y) rows).
  { intros x y Hxy.
    rewrite (upsert_Permutation x (upsert y rows)) by by apply upsert_NoDup.
    f_equiv.
    rewrite (filter_Permutation _ _ _ (upsert_Permutation y rows Hnd)).
    rewrite filter_cons_True by congruence. f_equiv.
    by rewrite list_filter_filter. }
  rewrite (Hstep a b), (Hstep b a) by congruence.
  rewrite Permutation_swap. do 2 f_equiv.
  rewrite (list_filter_iff _ (fun r => pk r <> pk b /\ pk r <> pk a));
    [done|intros r; tauto].
Qed.

(** Batches that hold the same readings in another order, no pair twice,
    leave the same rows. *)
Lemma upsert_all_Permutation rows ms ms' :
  NoDup (pk <$> rows) -> NoDup (pk <$> ms) -> ms ≡ₚ ms' ->
  upsert_all rows ms ≡ₚ upsert_all rows ms'.
Proof.
  intros Hrows Hms Hperm. revert rows Hrows Hms.
  induction Hperm as [|x l l' Hl IH|x y l|l l' l'' H1 IH1 H2 IH2];
    intros rows Hrows Hms; simpl.
  - done.
  - apply NoDup_cons in Hms as [_ Hms]. apply IH; [by apply upsert_NoDup|done].
  - apply upsert_all_proper; [by do 2 apply upsert_NoDup|].
    apply upsert_swap; [done|].
    csimpl in Hms. apply NoDup_cons in Hms as [Hy _].
    apply not_elem_of_cons in Hy as [Hy _]. congruence.
  - rewrite IH1 by done. apply IH2; [done|]. by rewrite <- H1.
Qed.

(** When no pair occurs twice in a batch, the order of its readings is
    immaterial: every query gets the same answer after the batch as after
    any rearrangement of it. *)
Theorem ingest_batch_order_is_immaterial db items items' ms ms' a :
  wf db -> validos items ms -> validos items' ms' ->
  ms ≡ₚ ms' -> NoDup (pk <$> ms) -> sensores_conocidos db ms ->
  consultar_mediciones (crear_mediciones db (PList items)).2 a
  = consultar_mediciones (crear_mediciones db (PList items')).2 a.
Proof.
  intros [Hpk _] Hv Hv' Hperm Hnd Hs.
  assert (Hs' : sensores_conocidos db ms').
  { unfold sensores_conocidos. by rewrite <- Hperm. }
  assert (Hnd' : NoDup (pk <$> ms')) by by rewrite <- Hperm.
  rewrite (crear_mediciones_validos db (PList items) ms) by done.
  rewrite (crear_mediciones_validos db (PList items') ms') by done.
  pose proof (merge_all_NoDup db ms Hnd Hs) as Hm.
  pose proof (merge_all_NoDup db ms' Hnd' Hs') as Hm'.
  destruct (decide (reemplazables db ms)) as [Hr|Hr].
  - rewrite decide_True in Hm'
      by (unfold reemplazables in *; by rewrite <- Hperm).
    rewrite Hm, Hm'. cbn [snd].
    apply consultar_mediciones_Permutation.
    + by apply upsert_all_NoDup.
    + by apply upsert_all_Permutation.
  - rewrite decide_False in Hm'
      by (unfold reemplazables in *; by rewrite <- Hperm).
    destruct Hm as [e ->], Hm' as [e' ->]. done.
Qed.

End BatchOrder.

(** ** What the query reads of its parameters *)

Section QueryParameters.
Context {float : Type} {RT : PyRuntime float}.

Implicit Types (db : Store float).

Lemma construir_consulta_truthy id desde desde' hasta hasta' order lim :
  truthy_str desde = truthy_str desde' ->
  truthy_str hasta = truthy_str hasta' ->
  construir_consulta id desde hasta order lim
  = construir_consulta id desde' hasta' order lim.
Proof. unfold construir_consulta. by intros -> ->. Qed.

(** The answer depends on the query string through five readings only. *)
Lemma consultar_mediciones_lee db (a a' : args) :
  args_get a "id_sensor" None type_int = args_get a' "id_sensor" None type_int ->
  args_get a "limit" 100 Z_of_string = args_get a' "limit" 100 Z_of_string ->
  direccion_pedida a = direccion_pedida a' ->
  truthy_str (args_lookup a "desde") = truthy_str (args_lookup a' "desde") ->
  truthy_str (args_lookup a "hasta") = truthy_str (args_lookup a' "hasta") ->
  consultar_mediciones db a = consultar_mediciones db a'.
Proof.
  intros Hid Hlim Horder Hdesde Hhasta. unfold consultar_mediciones.
  rewrite <- !direccion_lower in Horder. rewrite Hid, Hlim.
  destruct (args_get a' "id_sensor" None type_int) as [[|id|id]|]; try done;
    rewrite (construir_consulta_order _ _ _ _ _ _ Horder);
    by rewrite (construir_consulta_truthy _ _ _ _ _ _ _ Hdesde Hhasta).
Qed.

(** The route reads its parameters leniently.  A [limit] that is no
    integer counts as absent, and so as the default; an empty [desde] or
    [hasta] counts as absent; and [order] is read without regard to letter
    case, [Asc] or [ASC] as [asc]: in each case the answer is the answer
    to the query string with the parameter absent (or in lower case) and
    the other four parameters the same. *)
Theorem query_reads_parameters_leniently db (a a' : args) :
  ((exists s, args_lookup a "limit" = Some s /\ Z_of_string s = None)
   /\ args_lookup a' "limit" = None
   /\ lee_igual ["id_sensor"; "order"; "desde"; "hasta"]%string a a')
  \/ (args_lookup a "desde" = Some ""%string
      /\ args_lookup a' "desde" = None
      /\ lee_igual ["id_sensor"; "limit"; "order"; "hasta"]%string a a')
  \/ (args_lookup a "hasta" = Some ""%string
      /\ args_lookup a' "hasta" = None
      /\ lee_igual ["id_sensor"; "limit"; "order"; "desde"]%string a a')
  \/ ((exists t, args_lookup a "order" = Some t /\ pide_asc t = true)
      /\ args_lookup a' "order" = Some "asc"%string
      /\ lee_igual ["id_sensor"; "limit"; "desde"; "hasta"]%string a a') ->
  consultar_mediciones db a = consultar_mediciones db a'.
Proof.
  unfold lee_igual.
  intros [((s & Hs & Hint) & Hn & Hl)
         |[(Hs & Hn & Hl)|[(Hs & Hn & Hl)|((t & Hs & Hasc) & Hn & Hl)]]];
    apply Forall_cons in Hl as [H1 Hl]; apply Forall_cons in Hl as [H2 Hl];
    apply Forall_cons in Hl as [H3 Hl]; apply Forall_cons in Hl as [H4 _];
    apply consultar_mediciones_lee; unfold args_get, direccion_pedida;
    rewrite ?Hs, ?Hn, ?H1, ?H2, ?H3, ?H4, ?Hint, ?Hasc; done.
Qed.

End QueryParameters.

(** ** The further properties at sample inputs *)

Lemma ingest_keeps_stored_pairs_witness :
  pk m1_9 ∈ pk <$> mediciones (crear_mediciones db_una lote_repetido).2.
Proof.
  apply (proj2 (ingest_keeps_stored_pairs db_una lote_repetido)).
  vm_compute. apply list_elem_of_here.
Defined.

Lemma ingest_preserves_schema_witness :
  NoDup (pk <$> mediciones (crear_mediciones db_una lote_repetido).2)
  /\ forall k,
      (length (lecturas k (mediciones (crear_mediciones db_una lote_repetido).2))
       <= 1)%nat.
Proof.
  destruct (ingest_preserves_schema db_una lote_repetido wf_db_una)
    as (Hpk & _ & Huna).
  split; [exact Hpk|exact Huna].
Defined.


Lemma ingest_missing_field_is_named_witness :
  crear_mediciones db_vacia lote_sin_valor
  = (Ok (fail ("Ítem #" +:+ pretty 2%nat +:+ " inválido: '" +:+ "valor"
               +:+ "'") 400 None), db_vacia)
  /\ crear_mediciones db_vacia (PDict [])
     = (Ok (fail ("Ítem #" +:+ pretty 1%nat +:+ " inválido: '" +:+ "id_sensor"
                  +:+ "'") 400 None), db_vacia).
Proof.
  split.
  - destruct (ingest_missing_field_is_named db_vacia lote_sin_valor
                [lectura 1 t1 5]
                [("id_sensor"%string, PInt 1); ("fecha_hora"%string, PStr t1)]
                [] [medicion_de (lectura 1 t1 5)])
      as (_ & _ & Hvalor).
    + discriminate.
    + reflexivity.
    + repeat constructor; vm_compute; reflexivity.
    + apply (Hvalor (PInt 1) 1 (PStr t1) dt_t1); vm_compute; reflexivity.
  - destruct (ingest_missing_field_is_named db_vacia (PDict []) [] [] [] [])
      as (Hid & _).
    + discriminate.
    + reflexivity.
    + constructor.
    + apply Hid. reflexivity.
Defined.

Lemma ingest_rejects_first_invalid_item_witness :
  (crear_mediciones db_vacia lote_con_fecha_mala).2 = db_vacia
  /\ (crear_mediciones db_vacia lote_con_fecha_mala).1
     = Ok (fail ("Ítem #" +:+ pretty 2%nat +:+ " inválido: " +:+ iso_guidance)
             400 None).
Proof.
  destruct (ingest_rejects_first_invalid_item db_vacia lote_con_fecha_mala
              [lectura 1 t1 5] (lectura 1 "ayer" 5) []
              [medicion_de (lectura 1 t1 5)] (ValueError iso_guidance))
    as (Hdb & _ & Hvalue & _).
  - discriminate.
  - reflexivity.
  - constructor; [vm_compute; reflexivity|constructor].
  - vm_compute. reflexivity.
  - split; [exact Hdb|]. apply Hvalue. reflexivity.
Defined.

(** The text of a [ValueError] of a coercion quotes the text that was
    refused, as [repr] writes it. *)
Example invalid_item_messages :
  (crear_mediciones db_vacia (PList [lectura 1 t1 5; con_id_de_texto])).1
  = Ok (fail ("Ítem #2 inválido: invalid literal for int() with base 10: "
              +:+ "'abc'") 400 None)
  /\ py_repr "it's" = String comillas ("it's" +:+ String comillas "")
  /\ py_repr "abc" = "'abc'"%string.
Proof. vm_compute. auto. Qed.




Lemma query_ignores_row_order_witness :
  consultar_mediciones db_tres [("id_sensor", "1")]%string
  = consultar_mediciones db_tres_al_reves [("id_sensor", "1")]%string.
Proof.
  apply query_ignores_row_order.
  - exact (proj1 wf_db_tres).
  - symmetry. apply reverse_Permutation.
Defined.

Lemma parsed_timestamp_is_aware_witness :
  parse_iso_datetime (PStr "2025-10-14T09:30:00-05:00" : pyval PrimFloat.float)
  = Ok dt_menos_cinco
  /\ instant dt_menos_cinco = wall_clock dt_menos_cinco - (-18000000000).
Proof.
  apply (proj2 (parsed_timestamp_is_aware (float := PrimFloat.float))).
  - vm_compute. reflexivity.
  - reflexivity.
Defined.

Lemma listar_sensores_ignores_bad_filter_witness :
  listar_sensores catalogo
    [("id_estacion", "uno"); ("id_tipo_sensor", "2")]%string
  = listar_sensores catalogo [("id_tipo_sensor", "2")]%string.
Proof.
  apply listar_sensores_ignores_bad_filter. left. split_and!.
  - exists "uno"%string. split; [reflexivity|vm_compute; reflexivity].
  - reflexivity.
  - reflexivity.
Defined.

Example listar_sensores_answers :
  listar_sensores catalogo []
  = ([sensor_de 1 (Some 1) (Some 1); sensor_de 2 None (Some 2);
      sensor_de 3 (Some 1) (Some 2)], 200)
  /\ listar_sensores catalogo [("id_estacion", "1")]%string
     = ([sensor_de 1 (Some 1) (Some 1); sensor_de 3 (Some 1) (Some 2)], 200)
  /\ listar_sensores catalogo [("id_estacion", "0")]%string = ([], 200).
Proof. vm_compute. auto. Qed.

Lemma query_reads_parameters_leniently_witness :
  let base := [("id_sensor", "1")]%string in
  consultar_mediciones db_tres (("limit", "muchos")%string :: base)
  = consultar_mediciones db_tres base
  /\ consultar_mediciones db_tres (("desde", "")%string :: base)
     = consultar_mediciones db_tres base
  /\ consultar_mediciones db_tres (("hasta", "")%string :: base)
     = consultar_mediciones db_tres base
  /\ consultar_mediciones db_tres (("order", "AsC")%string :: base)
     = consultar_mediciones db_tres (("order", "asc")%string :: base).
Proof.
  intros base. split_and!; apply query_reads_parameters_leniently.
  - left. split_and!.
    + exists "muchos"%string. split; [reflexivity|vm_compute; reflexivity].
    + reflexivity.
    + repeat constructor.
  - right; left. split_and!; [reflexivity|reflexivity|repeat constructor].
  - right; right; left.
    split_and!; [reflexivity|reflexivity|repeat constructor].
  - right; right; right. split_and!.
    + exists "AsC"%string. split; reflexivity.
    + reflexivity.
    + repeat constructor.
Defined.

(** What the lenient readings come to for the three readings of sensor 1:
    a limit that is no integer and an empty bound change nothing, and
    [AsC] sorts like [asc]. *)
Example query_lenient_answers :
  (exists filas,
      consultar_mediciones db_tres
        [("id_sensor", "1"); ("limit", "muchos"); ("desde", "")]%string
      = ok (Filas filas) 200
      /\ fila_fecha_hora <$> filas
         = [instant dt_t3; instant dt_t2; instant dt_t1])
  /\ (exists filas,
        consultar_mediciones db_tres
          [("id_sensor", "1"); ("order", "AsC")]%string
        = ok (Filas filas) 200
        /\ fila_fecha_hora <$> filas
           = [instant dt_t1; instant dt_t2; instant dt_t3]).
Proof. split; eexists; split; vm_compute; reflexivity. Qed.

Lemma ingest_batch_order_is_immaterial_witness :
  consultar_mediciones
    (crear_mediciones db_una (PList [lectura 1 t2 20; lectura 2 t2 77])).2
    [("id_sensor", "1")]%string
  = consultar_mediciones
      (crear_mediciones db_una (PList [lectura 2 t2 77; lectura 1 t2 20])).2
      [("id_sensor", "1")]%string.
Proof.
  apply (ingest_batch_order_is_immaterial db_una _ _
           [medicion_de (lectura 1 t2 20); medicion_de (lectura 2 t2 77)]
           [medicion_de (lectura 2 t2 77); medicion_de (lectura 1 t2 20)]).
  - exact wf_db_una.
  - repeat constructor; vm_compute; reflexivity.
  - repeat constructor; vm_compute; reflexivity.
  - apply Permutation_swap.
  - apply (bool_decide_unpack _). vm_compute. exact I.
  - apply (bool_decide_unpack _). vm_compute. exact I.
Defined.
